(** * google_takeout_parser: JSON record extraction (parse_json.py, models.py)

    A shallow embedding of the JSON extractors of google_takeout_parser and
    of the models they build.  Python floats are modelled as IEEE binary64
    values (round to nearest, ties to even), Python dictionaries produced
    by [json.loads] as association lists, exceptions as tagged values, and
    a generator run as a trace of yielded items that ends normally or with
    an exception escaping the generator. *)

From Stdlib Require Import ZArith QArith Qpower Qround Qabs Lia Lqa List String Ascii Bool.
Import ListNotations.
Open Scope Z_scope.

(* ------------------------------------------------------------------------- *)
(** ** Binary64 floating point *)

Module Binary64.

(** A finite double: [f_man * 2 ^ f_exp]. *)
Record pyfloat := PyFloat { f_man : Z; f_exp : Z }.

Definition two : Q := 2 # 1.

Definition F2Q (f : pyfloat) : Q := inject_Z (f_man f) * two ^ f_exp f.

(** [qlog2 x] is the exponent [k] with [2^k <= |x| < 2^(k+1)]. *)
Definition qlog2 (x : Q) : Z :=
  let k := Z.log2 (Z.abs (Qnum x)) - Z.log2 (Zpos (Qden x)) in
  if Qle_bool (two ^ k) (Qabs x) then k else k - 1.

(** Round half to even, from a rational to an integer. *)
Definition round_half_even (y : Q) : Z :=
  let f := Qfloor y in
  match Qcompare (y - inject_Z f) (1 # 2) with
  | Lt => f
  | Gt => f + 1
  | Eq => if Z.even f then f else f + 1
  end.

(** Exponent of the last significand bit of a double of magnitude
    [2^k]: 53 significant bits, subnormals below [2^-1022]. *)
Definition ulp_exp (x : Q) : Z := Z.max (qlog2 x - 52) (-1074).

(** Rounding of an exact value to the nearest double (ties to even).
    Every value in this development stays far below [2^1024], so no
    overflow to infinity is modelled; a zero result is [+0.0]. *)
Definition round_binary64 (x : Q) : pyfloat :=
  if Qeq_bool x 0 then PyFloat 0 0
  else let e := ulp_exp x in PyFloat (round_half_even (x / two ^ e)) e.

(** Correctly rounded operations. *)
Definition fdiv (a b : pyfloat) : pyfloat := round_binary64 (F2Q a / F2Q b).
Definition fmul (a b : pyfloat) : pyfloat := round_binary64 (F2Q a * F2Q b).
Definition fsub (a b : pyfloat) : pyfloat := round_binary64 (F2Q a - F2Q b).
Definition fadd (a b : pyfloat) : pyfloat := round_binary64 (F2Q a + F2Q b).

(** [float(n)] for a Python int, and Python's [int / int] true division,
    which CPython rounds correctly from the exact quotient. *)
Definition float_of_int (n : Z) : pyfloat := round_binary64 (inject_Z n).
Definition int_truediv (a b : Z) : pyfloat := round_binary64 (inject_Z a / inject_Z b).

(** [int(x)]: truncation toward zero. *)
Definition py_int (f : pyfloat) : Z :=
  let q := F2Q f in
  if Qle_bool 0 q then Qfloor q else - Qfloor (- q).

(** [round(x)] on a float: the nearest integer, ties to even. *)
Definition py_round (f : pyfloat) : Z := round_half_even (F2Q f).

(** [math.modf(x)]: integral part truncated toward zero, and the exact
    remainder (both exactly representable). *)
Definition modf (f : pyfloat) : pyfloat * pyfloat :=
  let i := py_int f in
  (fsub f (float_of_int i), float_of_int i).

(** The literal [1e7] and [1e6]. *)
Definition f1e7 : pyfloat := float_of_int 10000000.
Definition f1e6 : pyfloat := float_of_int 1000000.

End Binary64.

(* ------------------------------------------------------------------------- *)
(** ** Scalar decoders *)

Module Scalar.
Import Binary64.

(** E7 coordinate decode.  [models.py] writes [data["latitudeE7"] / 1e7]
    and [parse_json.py] writes [float(loc["latitudeE7"]) / 1e7]; for a
    Python int both convert the int to a double and divide by [1e7]. *)
Definition e7_decode (raw : Z) : pyfloat := fdiv (float_of_int raw) f1e7.

(** The inverse named by the spec: [round(degrees * 1e7)]. *)
Definition e7_encode (deg : pyfloat) : Z := py_round (fmul deg f1e7).

End Scalar.

(* ------------------------------------------------------------------------- *)
(** ** Python values decoded by [json.loads] *)

Module Py.
Import Binary64.

(** A JSON value as Python holds it after [json.loads]: ints and floats
    stay apart, objects become dicts (keys distinct, in insertion order). *)
#[warnings="-register-all"]
Inductive json :=
| JNull
| JBool (b : bool)
| JInt (z : Z)
| JFloat (f : pyfloat)
| JStr (s : string)
| JList (l : list json)
| JDict (kvs : list (string * json)).

Inductive exn_kind :=
| KeyError | TypeError | AttributeError | ValueError | OverflowError
| RuntimeError | UnboundLocalError.

(** An exception: its class and the constant part of its message. *)
Record exn := Exn { exn_class : exn_kind; exn_msg : string }.

Inductive res (A : Type) := Ok (a : A) | Err (e : exn).
Arguments Ok {A} a.
Arguments Err {A} e.

Definition bind {A B} (m : res A) (k : A -> res B) : res B :=
  match m with Ok a => k a | Err e => Err e end.

Notation "'let*' x := m 'in' k" := (bind m (fun x => k))
  (at level 200, x name, m at level 100, k at level 200).

Fixpoint mapM {A B} (f : A -> res B) (l : list A) : res (list B) :=
  match l with
  | [] => Ok []
  | x :: r => let* y := f x in let* ys := mapM f r in Ok (y :: ys)
  end.

Fixpoint dict_lookup (k : string) (kvs : list (string * json)) : option json :=
  match kvs with
  | [] => None
  | (k', v) :: r => if String.eqb k k' then Some v else dict_lookup k r
  end.

Definition type_error {A} : res A := Err (Exn TypeError "").
Definition attribute_error {A} : res A := Err (Exn AttributeError "").

(** [k in v] for a string [k]: key membership for a dict, element
    equality for a list, substring for a str; other types raise. *)
Definition py_in (k : string) (v : json) : res bool :=
  match v with
  | JDict kvs => Ok (match dict_lookup k kvs with Some _ => true | None => false end)
  | JList l => Ok (existsb (fun x => match x with JStr s => String.eqb s k | _ => false end) l)
  | JStr s => Ok (match String.index 0 k s with Some _ => true | None => false end)
  | _ => type_error
  end.

(** [v.get(k, default)]: only dicts have [get]. *)
Definition py_get (v : json) (k : string) (default : json) : res json :=
  match v with
  | JDict kvs => Ok (match dict_lookup k kvs with Some x => x | None => default end)
  | _ => attribute_error
  end.

(** [v[k]] for a string [k]. *)
Definition py_getitem (v : json) (k : string) : res json :=
  match v with
  | JDict kvs =>
      match dict_lookup k kvs with Some x => Ok x | None => Err (Exn KeyError k) end
  | _ => type_error
  end.

(** [v.keys()]. *)
Definition py_keys (v : json) : res (list string) :=
  match v with JDict kvs => Ok (map fst kvs) | _ => attribute_error end.

(** The items of [for x in v]: a str iterates over its characters. *)
Definition py_iter (v : json) : res (list json) :=
  match v with
  | JList l => Ok l
  | JDict kvs => Ok (map (fun kv => JStr (fst kv)) kvs)
  | JStr s => Ok (map (fun c => JStr (String c EmptyString)) (list_ascii_of_string s))
  | _ => type_error
  end.

(** Python truthiness. *)
Definition py_truthy (v : json) : bool :=
  match v with
  | JNull => false
  | JBool b => b
  | JInt z => negb (Z.eqb z 0)
  | JFloat f => negb (Qeq_bool (F2Q f) 0)
  | JStr s => negb (String.eqb s EmptyString)
  | JList l => match l with [] => false | _ => true end
  | JDict kvs => match kvs with [] => false | _ => true end
  end.

Definition is_list (v : json) : bool := match v with JList _ => true | _ => false end.
Definition is_dict (v : json) : bool := match v with JDict _ => true | _ => false end.
Definition is_none (v : json) : bool := match v with JNull => true | _ => false end.

(** Conversion of an int to a double raises when it rounds past the
    largest finite double. *)
Definition check_finite (f : pyfloat) : res pyfloat :=
  if Qle_bool (two ^ 1024) (Qabs (F2Q f)) then Err (Exn OverflowError "") else Ok f.

Definition int_to_float (z : Z) : res pyfloat := check_finite (float_of_int z).

(** [v / 1e7] (and [v / d] for a float literal [d]): an int or bool is
    converted to a double first; other types raise. *)
Definition py_div_float (v : json) (d : pyfloat) : res pyfloat :=
  match v with
  | JInt z => let* x := int_to_float z in Ok (fdiv x d)
  | JBool b => Ok (fdiv (float_of_int (if b then 1 else 0)) d)
  | JFloat f => Ok (fdiv f d)
  | _ => type_error
  end.

(** [v / n] for a Python int [n]: int by int true division is rounded
    once from the exact quotient. *)
Definition py_div_int (v : json) (n : Z) : res pyfloat :=
  match v with
  | JInt z => check_finite (int_truediv z n)
  | JBool b => Ok (int_truediv (if b then 1 else 0) n)
  | JFloat f => let* y := int_to_float n in Ok (fdiv f y)
  | _ => type_error
  end.

(** [str.rstrip("s")]. *)
Definition rstrip_s (s : string) : string :=
  let fix drop (l : list Ascii.ascii) :=
    match l with
    | c :: r => if Ascii.eqb c "s"%char then drop r else l
    | [] => []
    end in
  string_of_list_ascii (rev (drop (rev (list_ascii_of_string s)))).

End Py.

(* ------------------------------------------------------------------------- *)
(** ** models.py *)

Module Models.
Import Binary64 Py.

(** A timezone-aware UTC [datetime], as microseconds since the epoch. *)
Record datetime := DT { epoch_us : Z }.

(** [dt.timestamp()]: [(dt - EPOCH).total_seconds()], an int divided by
    the int [10**6], rounded once to a double. *)
Definition timestamp (t : datetime) : pyfloat := int_truediv (epoch_us t) 1000000.

(** [int(dt.timestamp())]. *)
Definition trunc_timestamp (t : datetime) : Z := py_int (timestamp t).

(** Dataclass fields keep whatever JSON value the parser read, as Python
    does not check annotations. *)
Record Subtitles := MkSubtitles { sub_name : json; sub_url : json }.

Record LocationInfo := MkLocationInfo
  { li_name : json; li_url : json; li_source : json; li_sourceUrl : json }.

Record Activity := MkActivity {
  act_header : json;
  act_title : json;
  act_time : datetime;
  act_description : json;
  act_titleUrl : json;
  act_subtitles : list Subtitles;
  act_details : list json;
  act_locationInfos : list LocationInfo;
  act_products : json }.

Definition Activity_key (a : Activity) : json * json * Z :=
  (act_header a, act_title a, trunc_timestamp (act_time a)).

(** [link] is ["https://youtube.com/watch?v={}".format(videoId)]; the
    record keeps the video id it formats. *)
Record LikedYoutubeVideo := MkLikedYoutubeVideo
  { lv_title : json; lv_desc : json; lv_link_video_id : json; lv_dt : datetime }.

Definition LikedYoutubeVideo_key (v : LikedYoutubeVideo) : Z := trunc_timestamp (lv_dt v).

Record PlayStoreAppInstall := MkPlayStoreAppInstall
  { ai_title : json; ai_dt : datetime; ai_device_name : json }.

Definition PlayStoreAppInstall_key (a : PlayStoreAppInstall) : Z := trunc_timestamp (ai_dt a).

Record Location := MkLocation
  { loc_lat : pyfloat; loc_lng : pyfloat; loc_accuracy : option pyfloat; loc_dt : datetime }.

Definition Location_key (l : Location) : pyfloat * pyfloat * option pyfloat * Z :=
  (loc_lat l, loc_lng l, loc_accuracy l, trunc_timestamp (loc_dt l)).

Record CandidateLocation := MkCandidateLocation {
  cl_lat : pyfloat;
  cl_lng : pyfloat;
  cl_address : json;
  cl_name : json;
  cl_placeId : json;
  cl_locationConfidence : json;
  cl_sourceInfoDeviceTag : json }.

Record PlaceVisit := MkPlaceVisit {
  pv_lat : pyfloat;
  pv_lng : pyfloat;
  pv_centerLat : option pyfloat;
  pv_centerLng : option pyfloat;
  pv_address : json;
  pv_name : json;
  pv_locationConfidence : json;
  pv_placeId : json;
  pv_startTime : datetime;
  pv_endTime : datetime;
  pv_sourceInfoDeviceTag : json;
  pv_otherCandidateLocations : list CandidateLocation;
  pv_placeConfidence : json;
  pv_placeVisitType : json;
  pv_visitConfidence : json;
  pv_editConfirmationStatus : json;
  pv_placeVisitImportance : json }.

Definition PlaceVisit_key (p : PlaceVisit) : pyfloat * pyfloat * Z * json :=
  (pv_lat p, pv_lng p, trunc_timestamp (pv_startTime p), pv_visitConfidence p).

Record ActivitySegmentActivity := MkActivitySegmentActivity
  { asa_activityType : json; asa_probability : json }.

Record Waypoint := MkWaypoint { wp_lat : pyfloat; wp_lng : pyfloat }.

Record RoadSegment := MkRoadSegment { rs_placeId : json; rs_duration : option pyfloat }.

Record WaypointPath := MkWaypointPath {
  wpp_waypoints : list Waypoint;
  wpp_source : json;
  wpp_roadSegment : option (list RoadSegment);
  wpp_distanceMeters : json;
  wpp_travelMode : json;
  wpp_confidence : json }.

Record RawPathPoint := MkRawPathPoint
  { rp_lat : pyfloat; rp_lng : pyfloat; rp_accuracyMeters : json; rp_timestamp : datetime }.

Record ActivitySegment := MkActivitySegment {
  as_startTime : datetime;
  as_endTime : datetime;
  as_distance : json;
  as_confidence : json;
  as_activities : list ActivitySegmentActivity;
  as_simplifiedRawPath : list RawPathPoint;
  as_waypointPath : option WaypointPath;
  as_activityType : json;
  as_startLat : option pyfloat;
  as_startLng : option pyfloat;
  as_endLat : option pyfloat;
  as_endLng : option pyfloat;
  as_editConfirmationStatus : json }.

Definition ActivitySegment_key (s : ActivitySegment) : Z * Z * json :=
  (trunc_timestamp (as_startTime s), trunc_timestamp (as_endTime s), as_distance s).

Record ChromeHistory := MkChromeHistory { ch_title : json; ch_url : json; ch_dt : datetime }.

Definition ChromeHistory_key (c : ChromeHistory) : json * Z :=
  (ch_url c, trunc_timestamp (ch_dt c)).

(** [datetime.utcfromtimestamp(t)] as CPython computes it
    ([_PyTime_DoubleToDenominator] with round-half-even): the integral part
    of [t] by [modf], the fractional part times [1e6] rounded half to even,
    a carry into the seconds when that rounds to [1e6] or below [0], and
    the year range check of [datetime].  The carry adds integral doubles
    whose magnitude is below [2^53] whenever the year check passes, so it
    is written on [Z]. *)
Definition datetime_min_us : Z := -62135596800 * 1000000.
Definition datetime_max_us : Z := 253402300800 * 1000000 - 1.

Definition utcfromtimestamp (t : pyfloat) : res datetime :=
  let '(floatpart, intpart) := modf t in
  let us := py_round (fmul floatpart f1e6) in
  let secs := py_int intpart in
  let '(secs', us') :=
    if Z.leb 1000000 us then (secs + 1, us - 1000000)
    else if Z.ltb us 0 then (secs - 1, us + 1000000)
    else (secs, us) in
  let total := secs' * 1000000 + us' in
  if Z.leb datetime_min_us total && Z.leb total datetime_max_us
  then Ok (DT total)
  else Err (Exn ValueError "year is out of range").

(** The events an extractor yields. *)
Inductive event :=
| EvActivity (a : Activity)
| EvLikedYoutubeVideo (v : LikedYoutubeVideo)
| EvPlayStoreAppInstall (a : PlayStoreAppInstall)
| EvLocation (l : Location)
| EvPlaceVisit (p : PlaceVisit)
| EvActivitySegment (s : ActivitySegment)
| EvChromeHistory (c : ChromeHistory).

End Models.

(* ------------------------------------------------------------------------- *)
(** ** parse_json.py *)

Module Extract.
Import Binary64 Py Models.
Local Open Scope string_scope.

(** The functions [parse_json.py] imports from [time_utils] and
    [http_allowlist] (modules of the repository that are not part of this
    development), and CPython's [float(str)].  Every fact below holds for
    any implementation of them. *)
Class TimeUtils := {
  parse_json_utc_date : json -> res datetime;
  parse_datetime_millis : json -> res datetime }.

Class HttpAllowlist := { convert_to_https_opt : json -> res json }.

Class FloatOfStr := { float_of_str : string -> res pyfloat }.

(** The run of a generator: the items it yields, ending normally or with
    an exception that escapes to the caller. *)
Inductive trace :=
| TEnd
| TYield (o : res event) (rest : trace)
| TRaise (e : exn).

Fixpoint yields (l : list (res event)) (t : trace) : trace :=
  match l with [] => t | o :: r => TYield o (yields r t) end.

Definition outcome_of {A} (f : A -> event) (r : res A) : res event :=
  match r with Ok a => Ok (f a) | Err e => Err e end.

Section Parsers.
Context `{TimeUtils} `{HttpAllowlist} `{FloatOfStr}.

(** [float(v)]. *)
Definition py_float (v : json) : res pyfloat :=
  match v with
  | JInt z => int_to_float z
  | JBool b => Ok (float_of_int (if b then 1 else 0))
  | JFloat f => Ok f
  | JStr s => float_of_str s
  | _ => type_error
  end.

(** *** _parse_json_activity *)

(** The subtitle loop: non-dicts and dicts without ["name"] are skipped. *)
Fixpoint collect_subtitles (items : list json) : list Subtitles :=
  match items with
  | [] => []
  | JDict kvs :: r =>
      match dict_lookup "name" kvs with
      | Some n =>
          MkSubtitles n (match dict_lookup "url" kvs with Some u => u | None => JNull end)
          :: collect_subtitles r
      | None => collect_subtitles r
      end
  | _ :: r => collect_subtitles r
  end.

(** [[d["name"] for d in ... if isinstance(d, dict) and "name" in d]]. *)
Fixpoint collect_details (items : list json) : list json :=
  match items with
  | [] => []
  | JDict kvs :: r =>
      match dict_lookup "name" kvs with
      | Some n => n :: collect_details r
      | None => collect_details r
      end
  | _ :: r => collect_details r
  end.

Definition parse_location_info (locinfo : json) : res LocationInfo :=
  let* name := py_get locinfo "name" JNull in
  let* u := py_get locinfo "url" JNull in
  let* url := convert_to_https_opt u in
  let* source := py_get locinfo "source" JNull in
  let* su := py_get locinfo "sourceUrl" JNull in
  let* sourceUrl := convert_to_https_opt su in
  Ok (MkLocationInfo name url source sourceUrl).

(** The body of the [try] block for one record [blob]. *)
Definition parse_activity_blob (blob0 : json) : res Activity :=
  let* subs := py_get blob0 "subtitles" (JList []) in
  let* subs_items := py_iter subs in
  let subtitles := collect_subtitles subs_items in
  let* old_format := py_in "snippet" blob0 in
  let* blob := if old_format then py_getitem blob0 "snippet" else Ok blob0 in
  let* header := if old_format then Ok (JStr "YouTube") else py_getitem blob0 "header" in
  let* time_str := if old_format then py_getitem blob "publishedAt" else py_getitem blob0 "time" in
  let* title := py_getitem blob "title" in
  let* tu := py_get blob "titleUrl" JNull in
  let* titleUrl := convert_to_https_opt tu in
  let* description := py_get blob "description" JNull in
  let* time := parse_json_utc_date time_str in
  let* ds := py_get blob "details" (JList []) in
  let* d_items := py_iter ds in
  let details := collect_details d_items in
  let* lis := py_get blob "locationInfos" (JList []) in
  let* li_items := py_iter lis in
  let* locationInfos := mapM parse_location_info li_items in
  let* products := py_get blob "products" (JList []) in
  Ok (MkActivity header title time description titleUrl subtitles details
        locationInfos products).

(** The shape shared by [_parse_json_activity], [_parse_likes] and
    [_parse_app_installs]: a top-level check that yields an error, then a
    [for] loop over the document whose body catches every exception. *)
Definition list_extractor (msg : string) (build : json -> res event) (json_data : json) : trace :=
  yields (if is_list json_data then [] else [Err (Exn RuntimeError msg)])
    (match py_iter json_data with
     | Err e => TRaise e
     | Ok items => yields (map build items) TEnd
     end).

Definition parse_json_activity (json_data : json) : trace :=
  list_extractor "Activity: Top level item isn't a list"
    (fun blob => outcome_of EvActivity (parse_activity_blob blob)) json_data.

(** *** _parse_likes and _parse_app_installs *)

Definition parse_like (jlike : json) : res LikedYoutubeVideo :=
  let* sn := py_getitem jlike "snippet" in
  let* title := py_getitem sn "title" in
  let* desc := py_getitem sn "description" in
  let* cd := py_getitem jlike "contentDetails" in
  let* vid := py_getitem cd "videoId" in
  let* pa := py_getitem sn "publishedAt" in
  let* dt := parse_json_utc_date pa in
  Ok (MkLikedYoutubeVideo title desc vid dt).

Definition parse_likes (json_data : json) : trace :=
  list_extractor "Likes: Top level item isn't a list"
    (fun j => outcome_of EvLikedYoutubeVideo (parse_like j)) json_data.

Definition parse_app_install (japp : json) : res PlayStoreAppInstall :=
  let* inst := py_getitem japp "install" in
  let* doc := py_getitem inst "doc" in
  let* title := py_getitem doc "title" in
  let* da := py_getitem inst "deviceAttribute" in
  let* device_name := py_get da "deviceDisplayName" JNull in
  let* fit := py_getitem inst "firstInstallationTime" in
  let* dt := parse_json_utc_date fit in
  Ok (MkPlayStoreAppInstall title dt device_name).

Definition parse_app_installs (json_data : json) : trace :=
  list_extractor "App installs: Top level item isn't a list"
    (fun j => outcome_of EvPlayStoreAppInstall (parse_app_install j)) json_data.

(** *** _parse_location_history *)

Definition parse_timestamp_key (d : json) (key : string) : res datetime :=
  let* has_ms := py_in (key ++ "Ms") d in
  if has_ms then let* v := py_getitem d (key ++ "Ms") in parse_datetime_millis v
  else let* v := py_getitem d key in parse_json_utc_date v.

(** The [try] block, given [accuracy = loc.get("accuracy")]. *)
Definition parse_location (loc accuracy : json) : res Location :=
  let* lng_raw := py_getitem loc "longitudeE7" in
  let* lng := py_float lng_raw in
  let* lat_raw := py_getitem loc "latitudeE7" in
  let* lat := py_float lat_raw in
  let* dt := parse_timestamp_key loc "timestamp" in
  let* acc := if is_none accuracy then Ok None
              else let* a := py_float accuracy in Ok (Some a) in
  Ok (MkLocation (fdiv lat f1e7) (fdiv lng f1e7) acc dt).

(** [accuracy = loc.get("accuracy")] runs before the [try]. *)
Fixpoint location_loop (locs : list json) : trace :=
  match locs with
  | [] => TEnd
  | loc :: rest =>
      match py_get loc "accuracy" JNull with
      | Err e => TRaise e
      | Ok accuracy =>
          TYield (outcome_of EvLocation (parse_location loc accuracy)) (location_loop rest)
      end
  end.

Definition parse_location_history (json_data : json) : trace :=
  match py_in "locations" json_data with
  | Err e => TRaise e
  | Ok has =>
      yields (if has then [] else [Err (Exn RuntimeError "Locations: no 'locations' key")])
        (match py_get json_data "locations" (JList []) with
         | Err e => TRaise e
         | Ok ls => match py_iter ls with
                    | Err e => TRaise e
                    | Ok items => location_loop items
                    end
         end)
  end.

(** *** _parse_semantic_location_history *)

Definition sem_required_keys : list string := ["location"; "duration"].
Definition sem_required_location_keys : list string := ["placeId"; "latitudeE7"; "longitudeE7"].
Definition sem_activity_segment_required_keys : list string := ["duration"; "activities"].

(** [_check_required_keys]: the first key [k] with [k not in d]. *)
Fixpoint check_required_keys (d : json) (ks : list string) : res (option string) :=
  match ks with
  | [] => Ok None
  | k :: r => let* present := py_in k d in
              if present then check_required_keys d r else Ok (Some k)
  end.

(** [CandidateLocation.from_dict]. *)
Definition candidate_location_from_dict (data : json) : res CandidateLocation :=
  let* address := py_get data "address" JNull in
  let* name := py_get data "name" JNull in
  let* placeId := py_get data "placeId" JNull in
  let* lc := py_get data "locationConfidence" JNull in
  let* la := py_getitem data "latitudeE7" in
  let* lat := py_div_float la f1e7 in
  let* lo := py_getitem data "longitudeE7" in
  let* lng := py_div_float lo f1e7 in
  let* si := py_get data "sourceInfo" (JDict []) in
  let* tag := py_get si "deviceTag" JNull in
  Ok (MkCandidateLocation lat lng address name placeId lc tag).

(** [except Exception as e: if isinstance(e, KeyError): raise RuntimeError(...)
    else: raise e]. *)
Definition rewrap_key_error {A} (msg : string) (r : res A) : res A :=
  match r with
  | Err (Exn KeyError _) => Err (Exn RuntimeError msg)
  | _ => r
  end.

Definition center_e7 (placeVisit : json) (key : string) : res (option pyfloat) :=
  let* present := py_in key placeVisit in
  if present then let* v := py_getitem placeVisit key in
                  let* f := py_float v in Ok (Some (fdiv f f1e7))
  else Ok None.

(** [_parse_place_visit]: [Ok None] is the silent discard. *)
Definition parse_place_visit (placeVisit : json) : res (option PlaceVisit) :=
  let* missing_key := check_required_keys placeVisit sem_required_keys in
  match missing_key with
  | Some _ => Err (Exn RuntimeError "PlaceVisit: no key")
  | None =>
    rewrap_key_error "PlaceVisit: no key" (
      let* location_json := py_getitem placeVisit "location" in
      let* missing_location_key := check_required_keys location_json sem_required_location_keys in
      match missing_location_key with
      | Some _ => Ok None
      | None =>
        let* location := candidate_location_from_dict location_json in
        let* duration := py_getitem placeVisit "duration" in
        let* ocl := py_get placeVisit "otherCandidateLocations" (JList []) in
        let* ocl_items := py_iter ocl in
        let* others := mapM candidate_location_from_dict ocl_items in
        let* placeConfidence := py_get placeVisit "placeConfidence" JNull in
        let* placeVisitImportance := py_get placeVisit "placeVisitImportance" JNull in
        let* placeVisitType := py_get placeVisit "placeVisitType" JNull in
        let* visitConfidence := py_get placeVisit "visitConfidence" JNull in
        let* editConfirmationStatus := py_get placeVisit "editConfirmationStatus" JNull in
        let* centerLat := center_e7 placeVisit "centerLatE7" in
        let* centerLng := center_e7 placeVisit "centerLngE7" in
        let* startTime := parse_timestamp_key duration "startTimestamp" in
        let* endTime := parse_timestamp_key duration "endTimestamp" in
        Ok (Some (MkPlaceVisit (cl_lat location) (cl_lng location) centerLat centerLng
                   (cl_address location) (cl_name location) (cl_locationConfidence location)
                   (cl_placeId location) startTime endTime (cl_sourceInfoDeviceTag location)
                   others placeConfidence placeVisitType visitConfidence
                   editConfirmationStatus placeVisitImportance))
      end)
  end.

Definition activity_from_dict (a : json) : res ActivitySegmentActivity :=
  let* t := py_getitem a "activityType" in
  let* p := py_getitem a "probability" in
  Ok (MkActivitySegmentActivity t p).

Definition waypoint_from_dict (d : json) : res Waypoint :=
  let* la := py_getitem d "latE7" in
  let* lat := py_div_float la f1e7 in
  let* lo := py_getitem d "lngE7" in
  let* lng := py_div_float lo f1e7 in
  Ok (MkWaypoint lat lng).

(** [float(data["duration"].rstrip("s"))]: only a str has [rstrip]. *)
Definition road_segment_from_dict (d : json) : res RoadSegment :=
  let* placeId := py_getitem d "placeId" in
  let* has := py_in "duration" d in
  let* duration :=
    if has then
      let* v := py_getitem d "duration" in
      match v with
      | JStr s => let* f := float_of_str (rstrip_s s) in Ok (Some f)
      | _ => attribute_error
      end
    else Ok None in
  Ok (MkRoadSegment placeId duration).

Definition waypoint_path_from_dict (data : json) : res WaypointPath :=
  let* rs := py_get data "roadSegment" JNull in
  let* roadSegment :=
    if py_truthy rs then
      let* rsv := py_getitem data "roadSegment" in
      let* items := py_iter rsv in
      let* l := mapM road_segment_from_dict items in Ok (Some l)
    else Ok None in
  let* wv := py_getitem data "waypoints" in
  let* witems := py_iter wv in
  let* waypoints := mapM waypoint_from_dict witems in
  let* source := py_getitem data "source" in
  let* dm := py_get data "distanceMeters" JNull in
  let* tm := py_get data "travelMode" JNull in
  let* conf := py_get data "confidence" JNull in
  Ok (MkWaypointPath waypoints source roadSegment dm tm conf).

Definition raw_path_point_from_dict (d : json) : res RawPathPoint :=
  let* la := py_getitem d "latE7" in
  let* lat := py_div_float la f1e7 in
  let* lo := py_getitem d "lngE7" in
  let* lng := py_div_float lo f1e7 in
  let* acc := py_getitem d "accuracyMeters" in
  let* ts := py_getitem d "timestamp" in
  let* t := parse_json_utc_date ts in
  Ok (MkRawPathPoint lat lng acc t).

Definition simplified_raw_path_from_list (data : json) : res (list RawPathPoint) :=
  let* items := py_iter data in mapM raw_path_point_from_dict items.

(** [if activitySegment[key]: start = CandidateLocation.from_dict(...)]:
    a falsy value (such as [{}]) leaves both coordinates [None]. *)
Definition endpoint_lat_lng (seg : json) (key : string)
  : res (option pyfloat * option pyfloat) :=
  let* v := py_getitem seg key in
  if py_truthy v then
    let* v' := py_getitem seg key in
    let* c := candidate_location_from_dict v' in
    Ok (Some (cl_lat c), Some (cl_lng c))
  else Ok (None, None).

(** [_parse_activity_segment]. *)
Definition parse_activity_segment (activitySegment : json) : res (option ActivitySegment) :=
  let* missing_key := check_required_keys activitySegment sem_activity_segment_required_keys in
  match missing_key with
  | Some _ => Err (Exn RuntimeError "ActivitySegment: no key")
  | None =>
    rewrap_key_error "ActivitySegment: no key" (
      let* start := endpoint_lat_lng activitySegment "startLocation" in
      let* stop := endpoint_lat_lng activitySegment "endLocation" in
      let* d1 := py_getitem activitySegment "duration" in
      let* st := py_getitem d1 "startTimestamp" in
      let* startTime := parse_json_utc_date st in
      let* d2 := py_getitem activitySegment "duration" in
      let* et := py_getitem d2 "endTimestamp" in
      let* endTime := parse_json_utc_date et in
      let* distance := py_get activitySegment "distance" JNull in
      let* activityType := py_get activitySegment "activityType" JNull in
      let* confidence := py_get activitySegment "confidence" JNull in
      let* acts := py_get activitySegment "activities" (JList []) in
      let* act_items := py_iter acts in
      let* activities := mapM activity_from_dict act_items in
      let* has_wp := py_in "waypointPath" activitySegment in
      let* waypointPath :=
        if has_wp then let* w := py_getitem activitySegment "waypointPath" in
                       let* p := waypoint_path_from_dict w in Ok (Some p)
        else Ok None in
      let* srp := py_get activitySegment "simplifiedRawPath" (JDict []) in
      let* pts := py_get srp "points" (JList []) in
      let* simplifiedRawPath := simplified_raw_path_from_list pts in
      let* ecs := py_get activitySegment "editConfirmationStatus" JNull in
      Ok (Some (MkActivitySegment startTime endTime distance confidence activities
                 simplifiedRawPath waypointPath activityType
                 (fst start) (snd start) (fst stop) (snd stop) ecs)))
  end.

(** The local variable [result] of the loop: unbound until first assigned,
    and kept from one iteration to the next. *)
Inductive result_var := RUnbound | RNone | RSome (e : event).

(** [result = ...] followed by [if result is not None: yield result];
    an exception raised by the sub-builder is caught and yielded. *)
Definition assign_result (r : res (option event)) (st : result_var)
  : list (res event) * result_var :=
  match r with
  | Err e => ([Err e], st)
  | Ok None => ([], RNone)
  | Ok (Some ev) => ([Ok ev], RSome ev)
  end.

(** One iteration of the [for timelineObject in timelineObjects] loop. *)
Definition timeline_step (st : result_var) (timelineObject : json)
  : list (res event) * result_var :=
  match py_in "placeVisit" timelineObject with
  | Err e => ([Err e], st)
  | Ok true =>
      assign_result
        (let* pv := py_getitem timelineObject "placeVisit" in
         let* r := parse_place_visit pv in Ok (option_map EvPlaceVisit r)) st
  | Ok false =>
      match py_in "activitySegment" timelineObject with
      | Err e => ([Err e], st)
      | Ok true =>
          assign_result
            (let* sg := py_getitem timelineObject "activitySegment" in
             let* r := parse_activity_segment sg in Ok (option_map EvActivitySegment r)) st
      | Ok false =>
          (* else: yield RuntimeError(f"... {timelineObject.keys()} ..."),
             then fall through to [if result is not None: yield result] *)
          match py_keys timelineObject with
          | Err e => ([Err e], st)
          | Ok _ =>
              (Err (Exn RuntimeError "Unknown timeline object with keys")
               :: match st with
                  | RUnbound => [Err (Exn UnboundLocalError "result")]
                  | RNone => []
                  | RSome ev => [Ok ev]
                  end, st)
          end
      end
  end.

Fixpoint timeline_loop (st : result_var) (objs : list json) : list (res event) :=
  match objs with
  | [] => []
  | o :: r => let (out, st') := timeline_step st o in (out ++ timeline_loop st' r)%list
  end.

Definition parse_semantic_location_history (json_data : json) : trace :=
  yields (if is_dict json_data then []
          else [Err (Exn RuntimeError "Locations: Top level item isn't a dict")])
    (match py_in "timelineObjects" json_data with
     | Err e => TRaise e
     | Ok has =>
         yields (if has then [] else [Err (Exn RuntimeError "Locations: no 'timelineObjects' key")])
           (match py_get json_data "timelineObjects" (JList []) with
            | Err e => TRaise e
            | Ok tl => match py_iter tl with
                       | Err e => TRaise e
                       | Ok objs => yields (timeline_loop RUnbound objs) TEnd
                       end
            end)
     end).

(** *** _parse_chrome_history *)

(** [time_naive = datetime.utcfromtimestamp(item["time_usec"] / 10**6)];
    [url=item["url"]] unchanged; [.replace(tzinfo=timezone.utc)] keeps
    the instant. *)
Definition parse_chrome_item (item : json) : res ChromeHistory :=
  let* tu := py_getitem item "time_usec" in
  let* t := py_div_int tu 1000000 in
  let* time_naive := utcfromtimestamp t in
  let* title := py_getitem item "title" in
  let* url := py_getitem item "url" in
  Ok (MkChromeHistory title url time_naive).

Definition parse_chrome_history (json_data : json) : trace :=
  match py_in "Browser History" json_data with
  | Err e => TRaise e
  | Ok has =>
      yields (if has then []
              else [Err (Exn RuntimeError "Chrome/BrowserHistory: no 'Browser History' key")])
        (match py_get json_data "Browser History" (JList []) with
         | Err e => TRaise e
         | Ok l => match py_iter l with
                   | Err e => TRaise e
                   | Ok items => yields (map (fun i => outcome_of EvChromeHistory (parse_chrome_item i)) items) TEnd
                   end
         end)
  end.

End Parsers.

End Extract.

(* ------------------------------------------------------------------------- *)
(** ** Implementations of the imported functions, for concrete runs *)

Module Impl.
Import Binary64 Py Models Extract.
Local Open Scope string_scope.
Local Open Scope Z_scope.

Definition digit (c : ascii) : option Z :=
  let n := Z.of_nat (nat_of_ascii c) - 48 in
  if (0 <=? n) && (n <=? 9) then Some n else None.

Fixpoint digits_value (acc : Z) (l : list ascii) : option Z :=
  match l with
  | [] => Some acc
  | c :: r => match digit c with Some d => digits_value (acc * 10 + d) r | None => None end
  end.

(** Days from 1970-01-01 to a proleptic Gregorian date. *)
Definition days_from_civil (y m d : Z) : Z :=
  let y' := if m <=? 2 then y - 1 else y in
  let era := y' / 400 in
  let yoe := y' - era * 400 in
  let mp := if 2 <? m then m - 3 else m + 9 in
  let doy := (153 * mp + 2) / 5 + d - 1 in
  let doe := yoe * 365 + yoe / 4 - yoe / 100 + doy in
  era * 146097 + doe - 719468.

Definition days_in_month (y m : Z) : Z :=
  if m =? 2 then
    if (Z.modulo y 4 =? 0) && (negb (Z.modulo y 100 =? 0) || (Z.modulo y 400 =? 0))
    then 29 else 28
  else if (m =? 4) || (m =? 6) || (m =? 9) || (m =? 11) then 30 else 31.

(** The first six fraction digits, padded with zeros: truncation, not
    rounding, to microseconds. *)
Definition micros_of_fraction (l : list ascii) : option Z :=
  let l6 := firstn 6 (l ++ repeat "0"%char 6)%list in
  match digits_value 0 l with
  | Some _ => digits_value 0 l6
  | None => None
  end.

(** Modelled from the spec: [time_utils.parse_json_utc_date], "an ISO-8601
    string with 'Z' suffix and optional fractional seconds of any digit
    count (pad/truncate to microsecond precision), interpreted as UTC". *)
Definition parse_iso_utc (v : json) : res datetime :=
  match v with
  | JStr s =>
      match list_ascii_of_string s with
      | y1 :: y2 :: y3 :: y4 :: "-"%char :: mo1 :: mo2 :: "-"%char :: d1 :: d2 :: "T"%char
        :: h1 :: h2 :: ":"%char :: mi1 :: mi2 :: ":"%char :: s1 :: s2 :: rest =>
          let frac := match rest with
                      | ["Z"%char] => Some 0
                      | "."%char :: r =>
                          match rev r with
                          | "Z"%char :: f => match f with [] => None | _ => micros_of_fraction (rev f) end
                          | _ => None
                          end
                      | _ => None
                      end in
          match digits_value 0 [y1; y2; y3; y4], digits_value 0 [mo1; mo2],
                digits_value 0 [d1; d2], digits_value 0 [h1; h2], digits_value 0 [mi1; mi2],
                digits_value 0 [s1; s2], frac with
          | Some y, Some mo, Some d, Some h, Some mi, Some sec, Some us =>
              if (1 <=? y) && (1 <=? mo) && (mo <=? 12) && (1 <=? d)
                 && (d <=? days_in_month y mo) && (h <? 24) && (mi <? 60) && (sec <? 60)
              then Ok (DT (((days_from_civil y mo d * 24 + h) * 60 + mi) * 60 * 1000000
                           + sec * 1000000 + us))
              else Err (Exn ValueError "time data does not match format")
          | _, _, _, _, _, _, _ => Err (Exn ValueError "time data does not match format")
          end
      | _ => Err (Exn ValueError "time data does not match format")
      end
  | _ => Err (Exn TypeError "")
  end.

(** Modelled from the spec: [time_utils.parse_datetime_millis], "a
    millisecond epoch value, given either as a numeric or a numeric-string,
    converted as epoch_ms / 1000 seconds, UTC". *)
Definition parse_millis (v : json) : res datetime :=
  match v with
  | JInt ms => Ok (DT (ms * 1000))
  | JFloat f => Ok (DT (round_half_even (F2Q f * inject_Z 1000)))
  | JStr s =>
      match list_ascii_of_string s with
      | "-"%char :: (_ :: _) as r =>
          match digits_value 0 r with
          | Some ms => Ok (DT (- ms * 1000))
          | None => Err (Exn ValueError "")
          end
      | (_ :: _) as r =>
          match digits_value 0 r with
          | Some ms => Ok (DT (ms * 1000))
          | None => Err (Exn ValueError "")
          end
      | [] => Err (Exn ValueError "")
      end
  | _ => Err (Exn TypeError "")
  end.

(** Modelled from the spec: [http_allowlist.convert_to_https_opt], "rewrites
    an http:// URL to https://; absent/null input passes through
    unchanged". *)
Definition https_upgrade (v : json) : res json :=
  match v with
  | JStr s =>
      if String.prefix "http://" s
      then Ok (JStr ("https://" ++ substring 7 (String.length s - 7) s))
      else Ok v
  | _ => Ok v
  end.

Fixpoint split_dot (l : list ascii) : list ascii * option (list ascii) :=
  match l with
  | [] => ([], None)
  | c :: r => if Ascii.eqb c "."%char then ([], Some r)
              else let (a, b) := split_dot r in (c :: a, b)
  end.

(** CPython's [float(str)] on plain decimal literals ([-]digits[.digits]),
    rounded once from the exact value; other strings are refused. *)
Definition decimal_float (s : string) : res pyfloat :=
  let l := list_ascii_of_string s in
  let '(sign, body) := match l with "-"%char :: r => (-1, r) | _ => (1, l) end in
  let '(ip, fp) := split_dot body in
  let fl := match fp with Some f => f | None => [] end in
  match (ip ++ fl)%list with
  | [] => Err (Exn ValueError "could not convert string to float")
  | ds =>
      match digits_value 0 ds with
      | Some n => Ok (round_binary64 (inject_Z (sign * n) / inject_Z (10 ^ Z.of_nat (List.length fl))))
      | None => Err (Exn ValueError "could not convert string to float")
      end
  end.

#[export] Instance time_utils_impl : TimeUtils :=
  { parse_json_utc_date := parse_iso_utc; parse_datetime_millis := parse_millis }.
#[export] Instance http_allowlist_impl : HttpAllowlist := { convert_to_https_opt := https_upgrade }.
#[export] Instance float_of_str_impl : FloatOfStr := { float_of_str := decimal_float }.

End Impl.

(* ------------------------------------------------------------------------- *)
(** * Sample records *)

(** Concrete inputs, in the shape of the exports, on which the facts
    below are instantiated. *)
Module Samples.
Import Py.
Local Open Scope string_scope.

Definition chrome_item (time_usec : Z) : json :=
  JDict [("title", JStr "sean"); ("url", JStr "https://sean.fish");
         ("time_usec", JInt time_usec)].

Definition chrome_doc (time_usec : Z) : json :=
  JDict [("Browser History", JList [chrome_item time_usec])].

Definition segment_duration : json :=
  JDict [("startTimestamp", JStr "2012-12-06T04:09:31.087Z");
         ("endTimestamp", JStr "2012-12-06T04:19:21.052Z")].

Definition segment_empty_endpoints : json :=
  JDict [("duration", segment_duration); ("activities", JList []);
         ("startLocation", JDict []); ("endLocation", JDict [])].

Definition segment_no_start : list (string * json) :=
  [("duration", segment_duration); ("activities", JList []);
   ("endLocation", JDict [])].

Definition location_no_place_id : list (string * json) :=
  [("latitudeE7", JInt 351324213); ("longitudeE7", JInt (-1122434441))].

Definition place_visit_no_place_id : list (string * json) :=
  [("location", JDict location_no_place_id); ("duration", segment_duration)].

Definition legacy_activity : list (string * json) :=
  [("snippet", JDict [("title", JStr "Video"); ("publishedAt", JStr "2019-03-01T12:00:00.000Z");
                      ("subtitles", JList [JDict [("name", JStr "Channel")]])])].

(** Records in the shape of the location-history and semantic-history
    exports. *)
Definition sample_location : list (string * json) :=
  [("latitudeE7", JInt 351324213); ("longitudeE7", JInt (-1122434441));
   ("timestampMs", JStr "1354766971087"); ("accuracy", JInt 10)].

Definition candidate_location : list (string * json) :=
  [("placeId", JStr "ChIJ"); ("latitudeE7", JInt 351324213);
   ("longitudeE7", JInt (-1122434441))].

Definition sample_place_visit_dict : list (string * json) :=
  [("location", JDict candidate_location); ("duration", segment_duration);
   ("centerLatE7", JInt 351324000)].

Definition sample_waypoint : list (string * json) :=
  [("latE7", JInt 351324213); ("lngE7", JInt (-1122434441))].

Definition sample_raw_point : list (string * json) :=
  sample_waypoint ++ [("accuracyMeters", JInt 5); ("timestamp", JStr "2012-12-06T04:09:31.087Z")].

Definition sample_waypoint_path : list (string * json) :=
  [("waypoints", JList [JDict sample_waypoint]); ("source", JStr "INFERRED");
   ("roadSegment", JList [JDict [("placeId", JStr "ChIJ"); ("duration", JStr "12s")]])].

Definition sample_segment_dict : list (string * json) :=
  [("startLocation", JDict candidate_location); ("endLocation", JDict candidate_location);
   ("duration", segment_duration);
   ("activities", JList [JDict [("activityType", JStr "WALKING"); ("probability", JInt 90)]]);
   ("waypointPath", JDict sample_waypoint_path)].

Definition activity_record : list (string * json) :=
  [("header", JStr "Discover"); ("title", JStr "7 cards");
   ("time", JStr "2021-12-13T03:04:05.007Z"); ("products", JList [JStr "Discover"])].

Definition app_install_record : list (string * json) :=
  [("install", JDict [("doc", JDict [("title", JStr "Maps")]); ("deviceAttribute", JDict []);
                      ("firstInstallationTime", JStr "2020-01-01T00:00:00.000Z")])].

(** Built records, as the extractors return them. *)
Definition sample_activity : Models.Activity :=
  Models.MkActivity (JStr "Discover") (JStr "7 cards") (Models.DT 1639364645007000)
    JNull JNull [] [] [] (JList [JStr "Discover"]).

Definition sample_place_visit : Models.PlaceVisit :=
  Models.MkPlaceVisit (Binary64.PyFloat 0 0) (Binary64.PyFloat 0 0) None None JNull JNull
    JNull (JStr "ChIJ") (Models.DT 1354766971087000) (Models.DT 1354767561052000) JNull []
    JNull JNull (JInt 62) JNull JNull.

Definition sample_segment : Models.ActivitySegment :=
  Models.MkActivitySegment (Models.DT 1354766971087000) (Models.DT 1354767561052000)
    (JInt 1200) JNull [] [] None JNull None None None None JNull.

Definition sample_chrome : Models.ChromeHistory :=
  Models.MkChromeHistory (JStr "sean") (JStr "https://sean.fish") (Models.DT 1617404690134513).

End Samples.

(* ========================================================================= *)
(** * Facts *)

(** ** Rounding to binary64 *)

Module Binary64Facts.
Import Binary64.

Open Scope Q_scope.

Lemma two_neq0 : ~ two == 0.
Proof. unfold two. discriminate. Qed.

Lemma pow2_pos : forall e, 0 < two ^ e.
Proof. intros e. apply Qpower_0_lt. unfold two, Qlt. simpl. lia. Qed.

Lemma pow2_add : forall a b, two ^ (a + b) == two ^ a * two ^ b.
Proof. intros a b. apply Qpower_plus, two_neq0. Qed.

Lemma pow2_le : forall a b, (a <= b)%Z -> two ^ a <= two ^ b.
Proof. intros a b H. apply Qpower_le_compat_l; [exact H | unfold two, Qle; simpl; lia]. Qed.

Lemma pow2_lt : forall a b, (a < b)%Z -> two ^ a < two ^ b.
Proof. intros a b H. apply Qpower_lt_compat_l; [exact H | unfold two, Qlt; simpl; lia]. Qed.

Lemma pow2_Z : forall a, (0 <= a)%Z -> inject_Z (2 ^ a) == two ^ a.
Proof. intros a H. rewrite Zpower_Qpower by exact H. reflexivity. Qed.

Lemma pow2_lt_inv : forall a b, two ^ a < two ^ b -> (a < b)%Z.
Proof.
  intros a b H. destruct (Z.lt_ge_cases a b) as [|Hge]; [assumption|].
  apply pow2_le in Hge. exfalso. apply (Qlt_not_le _ _ H Hge).
Qed.

Lemma qlog2_spec : forall x, ~ x == 0 ->
  two ^ qlog2 x <= Qabs x /\ Qabs x < two ^ (qlog2 x + 1).
Proof.
  intros [n d] Hx. unfold qlog2. simpl Qnum. simpl Qden.
  assert (Hn : (0 < Z.abs n)%Z).
  { destruct n; simpl; try lia. exfalso. apply Hx. reflexivity. }
  set (a := Z.log2 (Z.abs n)). set (b := Z.log2 (Zpos d)).
  destruct (Z.log2_spec (Z.abs n) Hn) as [Ha1 Ha2].
  destruct (Z.log2_spec (Zpos d) ltac:(lia)) as [Hb1 Hb2].
  fold a in Ha1, Ha2. fold b in Hb1, Hb2.
  assert (Ha0 : (0 <= a)%Z) by apply Z.log2_nonneg.
  assert (Hb0 : (0 <= b)%Z) by apply Z.log2_nonneg.
  assert (Habs : Qabs (n # d) == inject_Z (Z.abs n) * / inject_Z (Zpos d)).
  { rewrite <- Zabs_Qabs. unfold Qeq; simpl. lia. }
  assert (HdQ : 0 < inject_Z (Zpos d)) by (unfold Qlt; simpl; lia).
  assert (HA1 : two ^ a <= inject_Z (Z.abs n)).
  { rewrite <- pow2_Z by lia. rewrite <- Zle_Qle. lia. }
  assert (HA2 : inject_Z (Z.abs n) < two ^ (a + 1)).
  { rewrite <- pow2_Z by lia. rewrite <- Zlt_Qlt. lia. }
  assert (HB1 : two ^ b <= inject_Z (Zpos d)).
  { rewrite <- pow2_Z by lia. rewrite <- Zle_Qle. lia. }
  assert (HB2 : inject_Z (Zpos d) < two ^ (b + 1)).
  { rewrite <- pow2_Z by lia. rewrite <- Zlt_Qlt. lia. }
  (* |x| > 2^(a-b-1) and |x| < 2^(a-b+1) *)
  assert (Hlow : two ^ (a - b - 1) < Qabs (n # d)).
  { rewrite Habs. apply Qlt_shift_div_l; [exact HdQ|].
    apply Qlt_le_trans with (two ^ (a - b - 1) * two ^ (b + 1)).
    - apply Qmult_lt_l; [apply pow2_pos | exact HB2].
    - rewrite <- pow2_add. replace (a - b - 1 + (b + 1))%Z with a by lia. exact HA1. }
  assert (Hhigh : Qabs (n # d) < two ^ (a - b + 1)).
  { rewrite Habs. apply Qlt_shift_div_r; [exact HdQ|].
    apply Qlt_le_trans with (two ^ (a + 1)); [exact HA2|].
    replace (a + 1)%Z with (a - b + 1 + b)%Z at 1 by lia. rewrite pow2_add.
    apply Qmult_le_l; [apply pow2_pos | exact HB1]. }
  destruct (Qle_bool (two ^ (a - b)) (Qabs (n # d))) eqn:E.
  - apply Qle_bool_iff in E. split; [exact E|].
    replace (a - b + 1)%Z with (a - b + 1)%Z by lia. exact Hhigh.
  - assert (E' : Qabs (n # d) < two ^ (a - b)).
    { apply Qnot_le_lt. intros H. apply Qle_bool_iff in H. congruence. }
    split.
    + replace (a - b - 1)%Z with (a - b - 1)%Z by lia. apply Qlt_le_weak, Hlow.
    + replace (a - b - 1 + 1)%Z with (a - b)%Z by lia. exact E'.
Qed.

Lemma qlog2_unique : forall x k,
  two ^ k <= Qabs x -> Qabs x < two ^ (k + 1) -> qlog2 x = k.
Proof.
  intros x k H1 H2.
  assert (Hx : ~ x == 0).
  { intros E. rewrite E in H1. simpl in H1. pose proof (pow2_pos k). apply (Qlt_not_le _ _ H H1). }
  destruct (qlog2_spec x Hx) as [H3 H4].
  assert (A : (qlog2 x < k + 1)%Z) by (apply pow2_lt_inv, (Qle_lt_trans _ _ _ H3 H2)).
  assert (B : (k < qlog2 x + 1)%Z) by (apply pow2_lt_inv, (Qle_lt_trans _ _ _ H1 H4)).
  lia.
Qed.

Lemma round_half_even_spec : forall y,
  Qabs (inject_Z (round_half_even y) - y) <= 1 # 2.
Proof.
  intros y. unfold round_half_even.
  pose proof (Qfloor_le y) as F1. pose proof (Qlt_floor y) as F2.
  rewrite inject_Z_plus in F2. change (inject_Z 1) with 1 in F2.
  apply Qabs_Qle_condition.
  destruct (Qcompare_spec (y - inject_Z (Qfloor y)) (1 # 2)) as [E|E|E].
  - destruct (Z.even (Qfloor y));
      [|rewrite inject_Z_plus; change (inject_Z 1) with 1]; split; lra.
  - split; lra.
  - rewrite inject_Z_plus. change (inject_Z 1) with 1. split; lra.
Qed.

Lemma int_close_eq : forall a b : Z,
  Qabs (inject_Z a - inject_Z b) < 1 -> a = b.
Proof.
  intros a b H. apply Qabs_Qlt_condition in H. destruct H as [H1 H2].
  unfold Qlt, Qminus, Qplus, Qopp, inject_Z in H1, H2; simpl in H1, H2. lia.
Qed.

Lemma round_half_even_close : forall y z,
  Qabs (y - inject_Z z) < 1 # 2 -> round_half_even y = z.
Proof.
  intros y z H. apply int_close_eq.
  pose proof (round_half_even_spec y) as R.
  apply Qabs_Qle_condition in R. apply Qabs_Qlt_condition in H.
  apply Qabs_Qlt_condition. lra.
Qed.

Lemma round_half_even_int : forall y z, y == inject_Z z -> round_half_even y = z.
Proof.
  intros y z E. apply round_half_even_close. rewrite E.
  setoid_replace (inject_Z z - inject_Z z) with 0 by ring. reflexivity.
Qed.

(** The rounding error is at most half a unit in the last place. *)
Lemma round_binary64_error : forall x, ~ x == 0 ->
  Qabs (F2Q (round_binary64 x) - x) <= (1 # 2) * two ^ ulp_exp x.
Proof.
  intros x Hx. unfold round_binary64.
  destruct (Qeq_bool x 0) eqn:E; [apply Qeq_bool_iff in E; contradiction|].
  unfold F2Q; simpl f_man; simpl f_exp.
  set (e := ulp_exp x). set (y := x / two ^ e).
  pose proof (pow2_pos e) as P.
  assert (Hy : x == y * two ^ e).
  { unfold y. field. intros Z0. rewrite Z0 in P. apply (Qlt_irrefl 0 P). }
  setoid_replace (inject_Z (round_half_even y) * two ^ e - x)
    with ((inject_Z (round_half_even y) - y) * two ^ e) by (rewrite Hy; ring).
  rewrite Qabs_Qmult. rewrite (Qabs_pos (two ^ e)) by (apply Qlt_le_weak, P).
  apply Qmult_le_compat_r; [apply round_half_even_spec | apply Qlt_le_weak, P].
Qed.

Lemma round_binary64_zero : forall x, x == 0 -> round_binary64 x = PyFloat 0 0.
Proof.
  intros x E. unfold round_binary64. apply Qeq_bool_iff in E. rewrite E. reflexivity.
Qed.

(** Absolute error bound for values below [2^K] (not in the subnormal range). *)
Lemma round_binary64_error_abs : forall x K,
  Qabs x < two ^ K -> (-1021 <= K)%Z ->
  Qabs (F2Q (round_binary64 x) - x) <= two ^ (K - 54).
Proof.
  intros x K HK HKmin.
  pose proof (pow2_pos (K - 54)) as P.
  destruct (Qeq_bool x 0) eqn:E.
  - apply Qeq_bool_iff in E. rewrite (round_binary64_zero x E). unfold F2Q; simpl f_man; simpl f_exp.
    setoid_replace (inject_Z 0 * two ^ 0 - x) with 0 by (rewrite E; ring).
    apply Qlt_le_weak, P.
  - apply Qeq_bool_neq in E.
    eapply Qle_trans; [apply round_binary64_error, E|].
    destruct (qlog2_spec x E) as [H1 H2].
    assert (Hk : (qlog2 x < K)%Z) by (apply pow2_lt_inv, (Qle_lt_trans _ _ _ H1 HK)).
    assert (He : (ulp_exp x <= K - 53)%Z) by (unfold ulp_exp; lia).
    replace (K - 53)%Z with (K - 54 + 1)%Z in He by lia.
    apply pow2_le in He. rewrite pow2_add in He.
    change (two ^ 1) with two in He. unfold two in He |- *. lra.
Qed.

(** Rounding agrees on equal rationals. *)
Lemma Qfloor_comp : forall x y, x == y -> Qfloor x = Qfloor y.
Proof.
  intros x y E. apply Z.le_antisymm; apply Qfloor_resp_le; rewrite E; apply Qle_refl.
Qed.

Lemma round_half_even_comp : forall x y, x == y -> round_half_even x = round_half_even y.
Proof.
  intros x y E. unfold round_half_even. rewrite (Qfloor_comp x y E).
  rewrite E. reflexivity.
Qed.

Lemma qlog2_comp : forall x y, ~ x == 0 -> x == y -> qlog2 x = qlog2 y.
Proof.
  intros x y Hx E. destruct (qlog2_spec x Hx) as [H1 H2].
  symmetry. apply qlog2_unique; rewrite <- E; assumption.
Qed.

Lemma round_binary64_comp : forall x y, x == y -> round_binary64 x = round_binary64 y.
Proof.
  intros x y E. destruct (Qeq_bool x 0) eqn:Z0.
  - apply Qeq_bool_iff in Z0. rewrite (round_binary64_zero x Z0).
    rewrite (round_binary64_zero y); [reflexivity|]. rewrite <- E. exact Z0.
  - apply Qeq_bool_neq in Z0.
    assert (Z1 : ~ y == 0) by (rewrite <- E; exact Z0).
    unfold round_binary64.
    destruct (Qeq_bool x 0) eqn:A; [apply Qeq_bool_iff in A; contradiction|].
    destruct (Qeq_bool y 0) eqn:B; [apply Qeq_bool_iff in B; contradiction|].
    unfold ulp_exp. rewrite (qlog2_comp x y Z0 E).
    set (e := Z.max (qlog2 y - 52) (-1074)).
    rewrite (round_half_even_comp (x / two ^ e) (y / two ^ e)); [reflexivity|].
    rewrite E. reflexivity.
Qed.

(** Integers of magnitude below [2^53] are doubles. *)
Lemma round_binary64_int : forall x n,
  x == inject_Z n -> (Z.abs n < 2 ^ 53)%Z -> F2Q (round_binary64 x) == x.
Proof.
  intros x n E Hn. destruct (Z.eq_dec n 0) as [->|Hn0].
  - rewrite (round_binary64_zero x E). rewrite E. reflexivity.
  - assert (Hx : ~ x == 0).
    { rewrite E. intros C. apply Hn0. unfold Qeq in C; simpl in C. lia. }
    unfold round_binary64.
    destruct (Qeq_bool x 0) eqn:A; [apply Qeq_bool_iff in A; contradiction|].
    destruct (qlog2_spec x Hx) as [H1 H2].
    assert (Hk : (qlog2 x < 53)%Z).
    { apply pow2_lt_inv. eapply Qle_lt_trans; [exact H1|].
      rewrite E. rewrite <- pow2_Z by lia.
      unfold Qlt, Qabs, inject_Z; simpl. lia. }
    set (e := ulp_exp x).
    assert (He : (e <= 0)%Z) by (unfold e, ulp_exp; lia).
    assert (Hy : x / two ^ e == inject_Z (n * 2 ^ (- e))).
    { rewrite inject_Z_mult, pow2_Z by lia. rewrite E.
      replace (- e)%Z with (0 - e)%Z by lia.
      rewrite Qpower_minus by apply two_neq0. rewrite Qpower_0_r.
      field; repeat split; first [apply two_neq0 | apply Qpower_not_0, two_neq0]. }
    unfold F2Q; simpl f_man; simpl f_exp.
    rewrite (round_half_even_int _ _ Hy).
    rewrite inject_Z_mult, pow2_Z by lia. rewrite E.
    replace (- e)%Z with (0 - e)%Z by lia.
    rewrite Qpower_minus by apply two_neq0. rewrite Qpower_0_r.
    field; repeat split; first [apply two_neq0 | apply Qpower_not_0, two_neq0].
Qed.

Lemma float_of_int_exact : forall n, (Z.abs n < 2 ^ 53)%Z -> F2Q (float_of_int n) == inject_Z n.
Proof. intros n Hn. apply (round_binary64_int _ n); [reflexivity | exact Hn]. Qed.

Lemma F2Q_f1e7 : F2Q f1e7 == 10000000 # 1.
Proof. vm_compute. reflexivity. Qed.

Lemma F2Q_f1e6 : F2Q f1e6 == 1000000 # 1.
Proof. vm_compute. reflexivity. Qed.

End Binary64Facts.
(** ** Helpers on the float model *)

Module NumFacts.
Import Binary64 Scalar Py Models Binary64Facts.

Local Open Scope Q_scope.

Lemma round_err : forall x K, Qabs x < two ^ K -> (-1021 <= K)%Z ->
  - two ^ (K - 54) <= F2Q (round_binary64 x) - x <= two ^ (K - 54).
Proof. intros x K H1 H2. apply Qabs_Qle_condition, round_binary64_error_abs; assumption. Qed.

Lemma Qabs_lt_intro : forall x b, - b < x -> x < b -> Qabs x < b.
Proof. intros x b H1 H2. apply Qabs_Qlt_condition. split; assumption. Qed.

Lemma check_finite_ok : forall f, Qabs (F2Q f) < two ^ 1024 -> check_finite f = Ok f.
Proof.
  intros f H. unfold check_finite.
  destruct (Qle_bool (two ^ 1024) (Qabs (F2Q f))) eqn:E; [|reflexivity].
  apply Qle_bool_iff in E. exfalso. apply (Qlt_not_le _ _ H E).
Qed.

Lemma Z_bounds_Q : forall (z a b : Z), (a <= z <= b)%Z -> inject_Z a <= inject_Z z <= inject_Z b.
Proof. intros z a b H. split; rewrite <- Zle_Qle; lia. Qed.

(** [e7_decode raw] is [raw / 10^7] rounded once. *)
Lemma e7_decode_exact : forall raw, (Z.abs raw <= 1800000000)%Z ->
  e7_decode raw = round_binary64 (inject_Z raw / inject_Z 10000000).
Proof.
  intros raw H. unfold Scalar.e7_decode, fdiv. apply round_binary64_comp.
  rewrite float_of_int_exact.
  - rewrite F2Q_f1e7. reflexivity.
  - assert (P : (2 ^ 53 = 9007199254740992)%Z) by reflexivity. lia.
Qed.

Lemma e7_roundtrip : forall raw, (Z.abs raw <= 1800000000)%Z ->
  e7_encode (e7_decode raw) = raw.
Proof.
  intros raw H. rewrite e7_decode_exact by exact H.
  assert (Rq : inject_Z (-1800000000) <= inject_Z raw <= inject_Z 1800000000)
    by (apply Z_bounds_Q; lia).
  change (inject_Z (-1800000000)) with (-1800000000 # 1) in Rq.
  change (inject_Z 1800000000) with (1800000000 # 1) in Rq.
  set (q := inject_Z raw / inject_Z 10000000).
  assert (Eq : q == inject_Z raw * (1 # 10000000)) by (unfold q; field; discriminate).
  assert (Hq : Qabs q < two ^ 8).
  { apply Qabs_lt_intro; rewrite Eq; change (two ^ 8) with (256 # 1); lra. }
  pose proof (round_err q 8 Hq ltac:(lia)) as E1.
  assert (P1 : two ^ (8 - 54) == 1 # 70368744177664) by reflexivity.
  rewrite P1 in E1. set (d := round_binary64 q) in *.
  unfold Scalar.e7_encode, py_round, fmul.
  rewrite (round_binary64_comp _ (F2Q d * (10000000 # 1))) by (rewrite F2Q_f1e7; reflexivity).
  set (m := F2Q d * (10000000 # 1)).
  assert (Hm : Qabs m < two ^ 31).
  { apply Qabs_lt_intro; unfold m; change (two ^ 31) with (2147483648 # 1);
      rewrite Eq in E1; lra. }
  pose proof (round_err m 31 Hm ltac:(lia)) as E2.
  assert (P2 : two ^ (31 - 54) == 1 # 8388608) by reflexivity.
  rewrite P2 in E2.
  apply round_half_even_close. apply Qabs_lt_intro; unfold m in *; rewrite Eq in E1; lra.
Qed.

(** [int(x)] is within one of [x]. *)
Lemma py_int_close : forall f, - 1 < F2Q f - inject_Z (py_int f) < 1.
Proof.
  intros f. unfold py_int.
  destruct (Qle_bool 0 (F2Q f)) eqn:E.
  - pose proof (Qfloor_le (F2Q f)). pose proof (Qlt_floor (F2Q f)).
    apply Qle_bool_iff in E.
    rewrite inject_Z_plus in H0. change (inject_Z 1) with 1 in H0. split; lra.
  - pose proof (Qfloor_le (- F2Q f)). pose proof (Qlt_floor (- F2Q f)).
    rewrite inject_Z_plus in H0. change (inject_Z 1) with 1 in H0.
    rewrite inject_Z_opp. split; lra.
Qed.

Lemma py_int_of_int : forall f n, F2Q f == inject_Z n -> py_int f = n.
Proof.
  intros f n E. pose proof (py_int_close f) as [C1 C2]. rewrite E in C1, C2.
  apply int_close_eq. apply Qabs_lt_intro; lra.
Qed.

(** [time_usec / 10**6] for [|time_usec| < 2^33 * 10^6]. *)
Lemma usec_div_err : forall x, (Z.abs x < 8589934592 * 1000000)%Z ->
  - (1 # 2097152) <= F2Q (int_truediv x 1000000) - inject_Z x * (1 # 1000000) <= 1 # 2097152
  /\ Qabs (inject_Z x * (1 # 1000000)) < 8589934592 # 1.
Proof.
  intros x H.
  assert (Rx : inject_Z (-8589934592000000) < inject_Z x < inject_Z 8589934592000000)
    by (split; rewrite <- Zlt_Qlt; lia).
  change (inject_Z (-8589934592000000)) with (-8589934592000000 # 1) in Rx.
  change (inject_Z 8589934592000000) with (8589934592000000 # 1) in Rx.
  assert (Hq : Qabs (inject_Z x * (1 # 1000000)) < 8589934592 # 1)
    by (apply Qabs_lt_intro; lra).
  split; [|exact Hq].
  unfold int_truediv.
  rewrite (round_binary64_comp _ (inject_Z x * (1 # 1000000))) by (field; discriminate).
  apply (round_err _ 33 Hq). lia.
Qed.

Lemma utcfromtimestamp_usec : forall x, (Z.abs x < 8589934592 * 1000000)%Z ->
  utcfromtimestamp (int_truediv x 1000000) = Ok (DT x).
Proof.
  intros x H. destruct (usec_div_err x H) as [E1 Hq].
  apply Qabs_Qlt_condition in Hq.
  set (t := int_truediv x 1000000) in *.
  set (q := inject_Z x * (1 # 1000000)) in *.
  unfold utcfromtimestamp, modf. cbv beta iota zeta.
  set (i := py_int t).
  pose proof (py_int_close t) as C. fold i in C.
  assert (Ri : inject_Z (-17179869184) < inject_Z i < inject_Z 17179869184).
  { change (inject_Z (-17179869184)) with (-17179869184 # 1).
    change (inject_Z 17179869184) with (17179869184 # 1). split; lra. }
  destruct Ri as [Ri1 Ri2]. rewrite <- Zlt_Qlt in Ri1, Ri2.
  assert (Hi : (Z.abs i < 2 ^ 53)%Z)
    by (assert (P : (2 ^ 53 = 9007199254740992)%Z) by reflexivity; lia).
  rewrite (py_int_of_int (float_of_int i) i) by (apply float_of_int_exact, Hi).
  unfold fsub. rewrite (round_binary64_comp _ (F2Q t - inject_Z i))
    by (rewrite (float_of_int_exact i Hi); reflexivity).
  set (r := F2Q t - inject_Z i).
  assert (Hr : Qabs r < two ^ 0) by (apply Qabs_lt_intro; unfold r; simpl; lra).
  pose proof (round_err r 0 Hr ltac:(lia)) as E2.
  assert (P2 : two ^ (0 - 54) == 1 # 18014398509481984) by reflexivity.
  rewrite P2 in E2. set (fr := round_binary64 r) in *.
  unfold fmul. rewrite (round_binary64_comp _ (F2Q fr * (1000000 # 1)))
    by (rewrite F2Q_f1e6; reflexivity).
  set (m := F2Q fr * (1000000 # 1)).
  assert (Hm : Qabs m < two ^ 20).
  { apply Qabs_lt_intro; unfold m, r in *; change (two ^ 20) with (1048576 # 1); lra. }
  pose proof (round_err m 20 Hm ltac:(lia)) as E3.
  assert (P3 : two ^ (20 - 54) == 1 # 17179869184) by reflexivity.
  rewrite P3 in E3.
  assert (Us : py_round (round_binary64 m) = (x - i * 1000000)%Z).
  { unfold py_round. apply round_half_even_close.
    unfold Z.sub. rewrite inject_Z_plus, inject_Z_opp, inject_Z_mult.
    change (inject_Z 1000000) with (1000000 # 1).
    apply Qabs_lt_intro; unfold m, r, q in *; lra. }
  rewrite Us.
  assert (R : forall y, (Z.abs y < 8589934592 * 1000000)%Z ->
            (datetime_min_us <=? y) && (y <=? datetime_max_us) = true).
  { intros y Hy. unfold datetime_min_us, datetime_max_us in *.
    apply andb_true_intro; split; apply Z.leb_le; lia. }
  destruct (1000000 <=? x - i * 1000000)%Z;
    [|destruct (x - i * 1000000 <? 0)%Z];
    cbv beta iota;
    match goal with |- context [if ?c then _ else _] =>
      replace c with true by (symmetry; rewrite <- (R x H); f_equal; f_equal; lia)
    end; f_equal; f_equal; lia.
Qed.

Lemma py_int_floor : forall f n, (0 <= n)%Z ->
  inject_Z n <= F2Q f < inject_Z n + 1 -> py_int f = n.
Proof.
  intros f n Hn [H1 H2]. pose proof (py_int_close f) as [C1 C2].
  assert (H0 : 0 <= inject_Z n) by (change 0 with (inject_Z 0); rewrite <- Zle_Qle; exact Hn).
  apply int_close_eq. apply Qabs_lt_intro.
  - unfold py_int in *. destruct (Qle_bool 0 (F2Q f)) eqn:E.
    + pose proof (Qfloor_le (F2Q f)). lra.
    + exfalso. assert (E' : Qle_bool 0 (F2Q f) = true) by (apply Qle_bool_iff; lra).
      congruence.
  - unfold py_int in *. destruct (Qle_bool 0 (F2Q f)) eqn:E.
    + pose proof (Qlt_floor (F2Q f)). rewrite inject_Z_plus in H. change (inject_Z 1) with 1 in H.
      assert (Qfloor (F2Q f) <= n)%Z.
      { assert (L : (Qfloor (F2Q f) < n + 1)%Z); [|lia].
        rewrite Zlt_Qlt. rewrite inject_Z_plus. change (inject_Z 1) with 1.
        apply Qle_lt_trans with (F2Q f); [apply Qfloor_le | lra]. }
      assert (inject_Z (Qfloor (F2Q f)) <= inject_Z n) by (rewrite <- Zle_Qle; exact H3). lra.
    + exfalso. assert (E' : Qle_bool 0 (F2Q f) = true) by (apply Qle_bool_iff; lra).
      congruence.
Qed.

(** [int(dt.timestamp())] is the floor of the epoch seconds from 1970 up
    to [2^33] seconds (the year 2242). *)
Lemma trunc_timestamp_floor : forall us, (0 <= us < 8589934592 * 1000000)%Z ->
  trunc_timestamp (DT us) = (us / 1000000)%Z.
Proof.
  intros us H. unfold trunc_timestamp, timestamp. simpl epoch_us.
  set (n := (us / 1000000)%Z). set (r := (us mod 1000000)%Z).
  assert (Dm : us = (1000000 * n + r)%Z) by (apply Z.div_mod; lia).
  assert (Rr : (0 <= r < 1000000)%Z) by (apply Z.mod_pos_bound; lia).
  assert (Rn : (0 <= n < 8589934592)%Z) by (split; [apply Z.div_pos | apply Z.div_lt_upper_bound]; lia).
  assert (Eus : inject_Z us * (1 # 1000000) == inject_Z n + inject_Z r * (1 # 1000000)).
  { rewrite Dm, inject_Z_plus, inject_Z_mult. change (inject_Z 1000000) with (1000000 # 1). field. }
  destruct (Z.eq_dec r 0) as [R0|R0].
  - apply py_int_of_int. unfold int_truediv.
    assert (X : inject_Z us / inject_Z 1000000 == inject_Z n).
    { rewrite Dm, R0, Z.add_0_r, inject_Z_mult. change (inject_Z 1000000) with (1000000 # 1).
      field. }
    assert (P : (2 ^ 53 = 9007199254740992)%Z) by reflexivity.
    rewrite (round_binary64_int _ n X ltac:(lia)). exact X.
  - destruct (usec_div_err us ltac:(lia)) as [E1 _].
    rewrite Eus in E1.
    assert (Qr : inject_Z 1 <= inject_Z r <= inject_Z 999999) by (apply Z_bounds_Q; lia).
    change (inject_Z 1) with 1 in Qr. change (inject_Z 999999) with (999999 # 1) in Qr.
    apply py_int_floor; [lia|]. split; lra.
Qed.

End NumFacts.

(** ** Helpers on the extractors *)

Module ParserFacts.
Import Py Models Extract.
Local Open Scope string_scope.

(** Peel the first [let*] of a hypothesis [bind m k = Ok _]. *)
Ltac bind_inv H :=
  match type of H with
  | bind ?m _ = _ =>
      let E := fresh "E" in
      destruct m eqn:E; cbn [bind] in H; [|discriminate H]
  end.

Lemma rewrap_key_error_ok : forall A msg (r : res A) a,
  rewrap_key_error msg r = Ok a -> r = Ok a.
Proof.
  intros A msg r a H. destruct r as [b|[k m]]; [exact H|].
  destruct k; discriminate H.
Qed.

Section Timeline.
Context `{TimeUtils} `{HttpAllowlist} `{FloatOfStr}.

(** An object that yields nothing and sets [result = None] cuts the loop:
    what follows it no longer depends on what came before. *)
Lemma timeline_loop_reset : forall o,
  (forall st, timeline_step st o = ([], RNone)) ->
  forall pre st suf,
  timeline_loop st (pre ++ o :: suf) = (timeline_loop st pre ++ timeline_loop RNone suf)%list.
Proof.
  intros o Ho pre. induction pre as [|x pre IH]; intros st suf.
  - simpl. rewrite Ho. reflexivity.
  - simpl. destruct (timeline_step st x) as [out st']. rewrite IH.
    apply app_assoc.
Qed.

Lemma check_required_keys_missing : forall kvs k ks,
  In k ks -> dict_lookup k kvs = None ->
  exists k', check_required_keys (JDict kvs) ks = Ok (Some k').
Proof.
  intros kvs k ks. induction ks as [|k0 ks IH]; intros Hin Hk; [destruct Hin|].
  simpl. destruct (dict_lookup k0 kvs) eqn:E.
  - destruct Hin as [->|Hin]; [congruence|]. cbn [bind]. apply IH; assumption.
  - cbn [bind]. eexists. reflexivity.
Qed.

Lemma check_required_keys_present : forall kvs ks,
  Forall (fun k => dict_lookup k kvs <> None) ks ->
  check_required_keys (JDict kvs) ks = Ok None.
Proof.
  intros kvs ks Hf. induction Hf as [|k ks Hk _ IH]; [reflexivity|].
  simpl. destruct (dict_lookup k kvs); [exact IH | congruence].
Qed.

(** The coordinates of a built segment are those [endpoint_lat_lng]
    computed for its two ends. *)
Lemma parse_activity_segment_endpoints : forall seg ev,
  parse_activity_segment seg = Ok (Some ev) ->
  exists s e, endpoint_lat_lng seg "startLocation" = Ok s
    /\ endpoint_lat_lng seg "endLocation" = Ok e
    /\ as_startLat ev = fst s /\ as_startLng ev = snd s
    /\ as_endLat ev = fst e /\ as_endLng ev = snd e.
Proof.
  intros seg ev Hp. unfold parse_activity_segment in Hp.
  bind_inv Hp. destruct a as [k|]; [discriminate Hp|].
  apply rewrap_key_error_ok in Hp.
  bind_inv Hp. bind_inv Hp.
  repeat bind_inv Hp.
  injection Hp as <-. exists a, a0. repeat split; assumption.
Qed.

End Timeline.

End ParserFacts.

(* ========================================================================= *)
(** * The claims *)

Module Claims.
Import Binary64 Scalar Py Models Extract Samples Binary64Facts NumFacts ParserFacts.
Local Open Scope string_scope.

Section Generic.
Context `{TimeUtils} `{HttpAllowlist} `{FloatOfStr}.

(** C1: a scalar top level is not a single shape error.  The activity
    extractor yields its shape error but does not return: [for blob in 5]
    then raises [TypeError] out of the generator.  The browser-history
    extractor raises [TypeError] at ["Browser History" not in 5] before
    yielding anything. *)
Theorem scalar_document_raises :
  parse_json_activity (JInt 5)
    = TYield (Err (Exn RuntimeError "Activity: Top level item isn't a list"))
        (TRaise (Exn TypeError ""))
  /\ parse_chrome_history (JInt 5) = TRaise (Exn TypeError "").
Proof. split; reflexivity. Qed.

(** C2: a timeline object with neither branch key yields its error and
    then falls through to [if result is not None: yield result].  As the
    first object, [result] is unbound and an [UnboundLocalError] is
    yielded as well (two outcomes for one object); after an object that
    built an event, that event is yielded a second time. *)
Theorem unknown_timeline_object_outcomes :
  parse_semantic_location_history
    (JDict [("timelineObjects", JList [JDict [("foo", JInt 1)]])])
    = TYield (Err (Exn RuntimeError "Unknown timeline object with keys"))
        (TYield (Err (Exn UnboundLocalError "result")) TEnd)
  /\ forall ev, timeline_step (RSome ev) (JDict [("foo", JInt 1)])
       = ([Err (Exn RuntimeError "Unknown timeline object with keys"); Ok ev], RSome ev).
Proof. split; [reflexivity | intros ev; reflexivity]. Qed.

(** C3: a placeVisit with [location] and [duration] whose location lacks
    one of placeId, latitudeE7, longitudeE7 yields nothing and raises
    nothing ([result] becomes [None]); the objects before it are
    unaffected and the loop goes on with the objects after it. *)
Theorem place_visit_silent_discard :
  forall (tkvs kvs lkvs : list (string * json)) (st : result_var) (pre suf : list json),
  dict_lookup "placeVisit" tkvs = Some (JDict kvs) ->
  dict_lookup "location" kvs = Some (JDict lkvs) ->
  dict_lookup "duration" kvs <> None ->
  (dict_lookup "placeId" lkvs = None \/ dict_lookup "latitudeE7" lkvs = None
   \/ dict_lookup "longitudeE7" lkvs = None) ->
  timeline_step st (JDict tkvs) = ([], RNone)
  /\ timeline_loop st (pre ++ JDict tkvs :: suf)
     = (timeline_loop st pre ++ timeline_loop RNone suf)%list.
Proof.
  intros tkvs kvs lkvs st pre suf Hpv Hloc Hdur Hmiss.
  assert (Hstep : forall st', timeline_step st' (JDict tkvs) = ([], RNone)).
  { intros st'. unfold timeline_step. cbn [py_in]. rewrite Hpv.
    cbn [py_getitem bind]. rewrite Hpv. cbn [bind].
    unfold parse_place_visit.
    rewrite (check_required_keys_present kvs sem_required_keys).
    2:{ repeat constructor; [rewrite Hloc; discriminate | exact Hdur]. }
    cbn [bind py_getitem]. rewrite Hloc. cbn [bind].
    assert (Hm : exists k', check_required_keys (JDict lkvs) sem_required_location_keys
                              = Ok (Some k')).
    { destruct Hmiss as [Hk|[Hk|Hk]];
        (eapply check_required_keys_missing; [|exact Hk]); simpl; tauto. }
    destruct Hm as [k' Hk']. rewrite Hk'. reflexivity. }
  split; [apply Hstep | apply timeline_loop_reset, Hstep].
Qed.

(** C4: [accuracy = loc.get("accuracy")] runs outside the [try]: a record
    that is not a dict raises [AttributeError] out of the extractor, and
    the records after it are never read. *)
Theorem location_non_dict_record_raises : forall r,
  parse_location_history (JDict [("locations", JList [JInt 5; r])])
    = TRaise (Exn AttributeError "").
Proof. intros r. reflexivity. Qed.

(** C5: [activitySegment["startLocation"]] is a plain lookup: a segment
    with [duration] and [activities] but no [startLocation] key is a
    per-record error (the [KeyError] rewrapped), not an event. *)
Theorem activity_segment_missing_start_location :
  forall kvs : list (string * json),
  dict_lookup "duration" kvs <> None ->
  dict_lookup "activities" kvs <> None ->
  dict_lookup "startLocation" kvs = None ->
  parse_activity_segment (JDict kvs) = Err (Exn RuntimeError "ActivitySegment: no key").
Proof.
  intros kvs Hd Ha Hs. unfold parse_activity_segment.
  rewrite (check_required_keys_present kvs sem_activity_segment_required_keys)
    by (repeat constructor; assumption).
  cbn [bind]. unfold endpoint_lat_lng. cbn [py_getitem]. rewrite Hs. reflexivity.
Qed.

(** C6: when [startLocation] (or [endLocation]) is [{}], which is falsy,
    the built segment has [None] for both of its coordinates. *)
Theorem activity_segment_empty_endpoint :
  forall (seg : json) (ev : ActivitySegment),
  parse_activity_segment seg = Ok (Some ev) ->
  (py_getitem seg "startLocation" = Ok (JDict []) ->
     as_startLat ev = None /\ as_startLng ev = None)
  /\ (py_getitem seg "endLocation" = Ok (JDict []) ->
     as_endLat ev = None /\ as_endLng ev = None).
Proof.
  intros seg ev Hp.
  destruct (parse_activity_segment_endpoints seg ev Hp)
    as (s & e & Es & Ee & L1 & L2 & L3 & L4).
  split; intros Hk.
  - unfold endpoint_lat_lng in Es. rewrite Hk in Es. cbn in Es. injection Es as <-.
    split; assumption.
  - unfold endpoint_lat_lng in Ee. rewrite Hk in Ee. cbn in Ee. injection Ee as <-.
    split; assumption.
Qed.

(** C10: the subtitles of a record are read from the record itself,
    before a legacy record is replaced by its ["snippet"]: subtitles under
    the snippet are ignored, and a legacy record without a top-level
    ["subtitles"] gets an empty list. *)
Theorem legacy_activity_outer_subtitles :
  forall (kvs : list (string * json)) (a : Activity),
  dict_lookup "snippet" kvs <> None ->
  parse_activity_blob (JDict kvs) = Ok a ->
  act_subtitles a
    = match dict_lookup "subtitles" kvs with
      | None => []
      | Some v => match py_iter v with Ok items => collect_subtitles items | Err _ => [] end
      end.
Proof.
  intros kvs a Hs Hp. unfold parse_activity_blob in Hp.
  bind_inv Hp. bind_inv Hp.
  repeat bind_inv Hp.
  injection Hp as <-. cbn [act_subtitles].
  cbn [py_get] in E. destruct (dict_lookup "subtitles" kvs).
  - injection E as <-. rewrite E0. reflexivity.
  - injection E as <-. cbn in E0. injection E0 as <-. reflexivity.
Qed.

End Generic.

(** C7 (as amended): the keys are the tuples of the data model, with
    [int(dt.timestamp())] for a timestamp; for instants from 1970 up to
    [2^33] seconds (the year 2242) that is the floor of the epoch
    seconds. *)
Theorem keys_truncated_epoch_second :
  forall (a : Activity) (p : PlaceVisit) (s : ActivitySegment) (c : ChromeHistory),
  (0 <= epoch_us (act_time a) < 8589934592 * 1000000)%Z ->
  (0 <= epoch_us (pv_startTime p) < 8589934592 * 1000000)%Z ->
  (0 <= epoch_us (as_startTime s) < 8589934592 * 1000000)%Z ->
  (0 <= epoch_us (as_endTime s) < 8589934592 * 1000000)%Z ->
  (0 <= epoch_us (ch_dt c) < 8589934592 * 1000000)%Z ->
  Activity_key a = (act_header a, act_title a, epoch_us (act_time a) / 1000000)%Z
  /\ PlaceVisit_key p
     = (pv_lat p, pv_lng p, (epoch_us (pv_startTime p) / 1000000)%Z, pv_visitConfidence p)
  /\ ActivitySegment_key s
     = ((epoch_us (as_startTime s) / 1000000)%Z, (epoch_us (as_endTime s) / 1000000)%Z,
        as_distance s)
  /\ ChromeHistory_key c = (ch_url c, (epoch_us (ch_dt c) / 1000000)%Z).
Proof.
  intros a p s c Ha Hp Hs He Hc.
  assert (T : forall t, (0 <= epoch_us t < 8589934592 * 1000000)%Z ->
                trunc_timestamp t = (epoch_us t / 1000000)%Z)
    by (intros [u] Hu; apply trunc_timestamp_floor, Hu).
  unfold Activity_key, PlaceVisit_key, ActivitySegment_key, ChromeHistory_key.
  rewrite (T _ Ha), (T _ Hp), (T _ Hs), (T _ He), (T _ Hc).
  repeat split.
Qed.

(** C7 counterexample: half a second before the epoch, the browser-history
    key holds [int(-0.5) = 0], while the epoch second of the instant is
    [-1]. *)
Lemma chrome_key_before_epoch :
  parse_chrome_history (chrome_doc (-500000))
    = TYield (Ok (EvChromeHistory
        (MkChromeHistory (JStr "sean") (JStr "https://sean.fish") (DT (-500000))))) TEnd
  /\ ChromeHistory_key (MkChromeHistory (JStr "sean") (JStr "https://sean.fish") (DT (-500000)))
     = (JStr "https://sean.fish", 0%Z)
  /\ ((-500000) / 1000000 = -1)%Z.
Proof. split; [|split]; vm_compute; reflexivity. Qed.

(** C8 (as amended): for [|time_usec| < 2^33 * 10^6] (up to the year 2242)
    the event is at exactly [time_usec] microseconds, with the record's
    title and its url unchanged. *)
Theorem chrome_item_exact_instant :
  forall (item title url : json) (x : Z),
  py_getitem item "time_usec" = Ok (JInt x) ->
  py_getitem item "title" = Ok title ->
  py_getitem item "url" = Ok url ->
  (Z.abs x < 8589934592 * 1000000)%Z ->
  parse_chrome_item item = Ok (MkChromeHistory title url (DT x)).
Proof.
  intros item title url x Ht Hti Hu Hx. unfold parse_chrome_item.
  rewrite Ht. cbn [bind py_div_int].
  rewrite check_finite_ok.
  - cbn [bind]. rewrite (utcfromtimestamp_usec x Hx). cbn [bind].
    rewrite Hti, Hu. reflexivity.
  - destruct (usec_div_err x Hx) as [E1 Hq]. apply Qabs_Qlt_condition in Hq.
    apply Qlt_trans with (two ^ 34); [|apply pow2_lt; lia].
    apply Qabs_lt_intro; change (two ^ 34) with (17179869184 # 1); lra.
Qed.

(** C8 counterexample: past [2^33] seconds the double [time_usec / 10**6]
    no longer holds every microsecond: [8600000000000001] gives an event at
    [8600000000000002] microseconds. *)
Lemma chrome_time_usec_rounded :
  parse_chrome_history (chrome_doc 8600000000000001)
    = TYield (Ok (EvChromeHistory
        (MkChromeHistory (JStr "sean") (JStr "https://sean.fish") (DT 8600000000000002)))) TEnd.
Proof. vm_compute. reflexivity. Qed.

(** C9: for [|raw| <= 1800000000] (180 degrees), [raw / 1e7] as the code
    computes it is [raw / 10^7] rounded once to a double, and
    [round(degrees * 1e7)] gives back [raw]. *)
Theorem e7_decode_exact_roundtrip : forall raw : Z,
  (Z.abs raw <= 1800000000)%Z ->
  py_div_float (JInt raw) f1e7 = Ok (e7_decode raw)
  /\ e7_decode raw = round_binary64 (inject_Z raw / inject_Z 10000000)
  /\ e7_encode (e7_decode raw) = raw.
Proof.
  intros raw Hr. split; [|split; [apply e7_decode_exact, Hr | apply e7_roundtrip, Hr]].
  unfold py_div_float, int_to_float. rewrite check_finite_ok; [reflexivity|].
  assert (P : (2 ^ 53 = 9007199254740992)%Z) by reflexivity.
  rewrite float_of_int_exact by lia.
  assert (Rq : inject_Z (-1800000000) <= inject_Z raw <= inject_Z 1800000000)
    by (apply Z_bounds_Q; lia).
  change (inject_Z (-1800000000)) with (-1800000000 # 1) in Rq.
  change (inject_Z 1800000000) with (1800000000 # 1) in Rq.
  apply Qlt_trans with (two ^ 31); [|apply pow2_lt; lia].
  apply Qabs_lt_intro; change (two ^ 31) with (2147483648 # 1); lra.
Qed.

End Claims.

(** ** Instances of the claims on sample records *)

Module Witnesses.
Import Binary64 Scalar Py Models Extract Impl Samples Claims.
Local Open Scope string_scope.

Lemma place_visit_silent_discard_witness :
  timeline_step RUnbound (JDict [("placeVisit", JDict place_visit_no_place_id)]) = ([], RNone)
  /\ timeline_loop RUnbound
       ([JDict [("activitySegment", segment_empty_endpoints)]]
        ++ JDict [("placeVisit", JDict place_visit_no_place_id)]
           :: [JDict [("activitySegment", segment_empty_endpoints)]])
     = (timeline_loop RUnbound [JDict [("activitySegment", segment_empty_endpoints)]]
        ++ timeline_loop RNone [JDict [("activitySegment", segment_empty_endpoints)]])%list.
Proof.
  apply (place_visit_silent_discard _ place_visit_no_place_id location_no_place_id);
    [reflexivity | reflexivity | vm_compute; discriminate | left; reflexivity].
Defined.

Lemma activity_segment_missing_start_location_witness :
  dict_lookup "duration" segment_no_start <> None
  /\ dict_lookup "activities" segment_no_start <> None
  /\ dict_lookup "startLocation" segment_no_start = None
  /\ parse_activity_segment (JDict segment_no_start)
     = Err (Exn RuntimeError "ActivitySegment: no key").
Proof.
  assert (Hd : dict_lookup "duration" segment_no_start <> None) by (vm_compute; discriminate).
  assert (Ha : dict_lookup "activities" segment_no_start <> None) by (vm_compute; discriminate).
  assert (Hs : dict_lookup "startLocation" segment_no_start = None) by reflexivity.
  exact (conj Hd (conj Ha (conj Hs (activity_segment_missing_start_location _ Hd Ha Hs)))).
Defined.

Lemma activity_segment_empty_endpoint_witness :
  match parse_activity_segment segment_empty_endpoints with
  | Ok (Some ev) => as_startLat ev = None /\ as_startLng ev = None
                    /\ as_endLat ev = None /\ as_endLng ev = None
  | _ => False
  end.
Proof.
  destruct (parse_activity_segment segment_empty_endpoints) as [[ev|]|e] eqn:E.
  - destruct (activity_segment_empty_endpoint _ _ E) as [S T].
    destruct (S eq_refl) as [S1 S2]. destruct (T eq_refl) as [T1 T2].
    exact (conj S1 (conj S2 (conj T1 T2))).
  - vm_compute in E. discriminate E.
  - vm_compute in E. discriminate E.
Defined.

Lemma legacy_activity_outer_subtitles_witness :
  match parse_activity_blob (JDict legacy_activity) with
  | Ok a => act_subtitles a = []
  | Err _ => False
  end.
Proof.
  assert (Hs : dict_lookup "snippet" legacy_activity <> None) by (vm_compute; discriminate).
  destruct (parse_activity_blob (JDict legacy_activity)) as [a|e] eqn:E.
  - rewrite (legacy_activity_outer_subtitles _ _ Hs E). reflexivity.
  - vm_compute in E. discriminate E.
Defined.

Lemma keys_truncated_epoch_second_witness :
  Activity_key sample_activity = (JStr "Discover", JStr "7 cards", 1639364645%Z)
  /\ PlaceVisit_key sample_place_visit
     = (PyFloat 0 0, PyFloat 0 0, 1354766971%Z, JInt 62)
  /\ ActivitySegment_key sample_segment = (1354766971%Z, 1354767561%Z, JInt 1200)
  /\ ChromeHistory_key sample_chrome = (JStr "https://sean.fish", 1617404690%Z).
Proof.
  apply (keys_truncated_epoch_second sample_activity sample_place_visit sample_segment
           sample_chrome); simpl; lia.
Defined.

Lemma chrome_item_exact_instant_witness :
  parse_chrome_item (chrome_item 1617404690134513)
  = Ok (MkChromeHistory (JStr "sean") (JStr "https://sean.fish") (DT 1617404690134513)).
Proof.
  apply chrome_item_exact_instant; [reflexivity | reflexivity | reflexivity | lia].
Defined.

Lemma e7_decode_exact_roundtrip_witness :
  py_div_float (JInt 351324213) f1e7 = Ok (e7_decode 351324213)
  /\ e7_decode 351324213 = round_binary64 (inject_Z 351324213 / inject_Z 10000000)
  /\ e7_encode (e7_decode 351324213) = 351324213%Z.
Proof. apply e7_decode_exact_roundtrip. lia. Defined.

End Witnesses.

(* ========================================================================= *)
(** * Further properties of the extractors *)

(** ** Helpers *)

Module ExtraFacts.
Import Binary64 Scalar Py Models Extract Binary64Facts NumFacts ParserFacts.
Local Open Scope string_scope.

Lemma mapM_length : forall A B (f : A -> res B) l l',
  mapM f l = Ok l' -> List.length l' = List.length l.
Proof.
  intros A B f l. induction l as [|x l IH]; intros l' H; simpl in H.
  - injection H as <-. reflexivity.
  - destruct (f x); [|discriminate]. cbn [bind] in H.
    destruct (mapM f l) as [ys|]; [|discriminate]. cbn [bind] in H.
    injection H as <-. simpl. f_equal. apply IH. reflexivity.
Qed.

Lemma check_finite_inv : forall f g, check_finite f = Ok g -> g = f.
Proof.
  intros f g H. unfold check_finite in H.
  destruct (Qle_bool _ _); [discriminate | injection H as <-; reflexivity].
Qed.

Lemma int_to_float_small : forall z, (Z.abs z < 2 ^ 53)%Z ->
  int_to_float z = Ok (float_of_int z).
Proof.
  intros z H. unfold int_to_float. apply check_finite_ok.
  rewrite (float_of_int_exact z H).
  apply Qlt_trans with (two ^ 53); [|apply pow2_lt; lia].
  rewrite <- pow2_Z by lia. change (inject_Z z) with (z # 1).
  rewrite <- Zabs_Qabs. change (Z.abs z # 1) with (inject_Z (Z.abs z)).
  rewrite <- Zlt_Qlt. exact H.
Qed.

(** [v / 1e7] on an int field is the E7 decode. *)
Lemma py_div_float_e7 : forall z, (Z.abs z < 2 ^ 53)%Z ->
  py_div_float (JInt z) f1e7 = Ok (e7_decode z).
Proof.
  intros z H. unfold py_div_float. rewrite (int_to_float_small z H). reflexivity.
Qed.



Lemma map_const_repeat : forall A B (f : A -> B) (c : B) l,
  (forall x, f x = c) -> map f l = List.repeat c (List.length l).
Proof.
  intros A B f c l Hf. induction l as [|x l IH]; [reflexivity|].
  simpl. rewrite Hf, IH. reflexivity.
Qed.

Lemma py_getitem_dict : forall kvs k v,
  py_getitem (JDict kvs) k = Ok v -> dict_lookup k kvs = Some v.
Proof.
  intros kvs k v H. cbn [py_getitem] in H.
  destruct (dict_lookup k kvs); [injection H as ->; reflexivity | discriminate].
Qed.

Lemma py_get_dict : forall kvs k d v,
  py_get (JDict kvs) k d = Ok v -> v = match dict_lookup k kvs with Some x => x | None => d end.
Proof. intros kvs k d v H. cbn [py_get] in H. injection H as <-. reflexivity. Qed.

Lemma check_required_keys_none : forall kvs ks,
  check_required_keys (JDict kvs) ks = Ok None -> Forall (fun k => dict_lookup k kvs <> None) ks.
Proof.
  intros kvs ks. induction ks as [|k ks IH]; intros Hc; [constructor|].
  cbn [check_required_keys py_in bind] in Hc.
  destruct (dict_lookup k kvs) eqn:Ek; [|discriminate Hc].
  constructor; [congruence | exact (IH Hc)].
Qed.

Section Builders.
Context `{TimeUtils} `{HttpAllowlist} `{FloatOfStr}.

Lemma center_e7_none : forall kvs key r,
  center_e7 (JDict kvs) key = Ok r -> (r = None <-> dict_lookup key kvs = None).
Proof.
  intros kvs key r Hc. unfold center_e7 in Hc. cbn [py_in py_getitem] in Hc.
  destruct (dict_lookup key kvs) eqn:Ek; cbn [bind] in Hc.
  - bind_inv Hc. injection Hc as <-. split; discriminate.
  - injection Hc as <-. split; reflexivity.
Qed.

Lemma timeline_step_branch : forall st o,
  (exists kvs, o = JDict kvs
     /\ (dict_lookup "placeVisit" kvs <> None \/ dict_lookup "activitySegment" kvs <> None)) ->
  exists st', timeline_step st o = (fst (timeline_step RUnbound o), st')
    /\ fst (timeline_step st o) = fst (timeline_step RUnbound o)
    /\ (List.length (fst (timeline_step RUnbound o)) <= 1)%nat.
Proof.
  intros st o (kvs & -> & Hk). unfold timeline_step. cbn [py_in].
  destruct (dict_lookup "placeVisit" kvs) eqn:P.
  - destruct (bind _ _) as [[ev|]|e]; cbn [assign_result fst List.length];
      eexists; repeat split; lia.
  - destruct (dict_lookup "activitySegment" kvs) eqn:A; [|destruct Hk; contradiction].
    destruct (bind _ _) as [[ev|]|e]; cbn [assign_result fst List.length];
      eexists; repeat split; lia.
Qed.

End Builders.

Section Loops.
Context `{TimeUtils} `{HttpAllowlist} `{FloatOfStr}.

Lemma location_loop_dicts : forall locs,
  Forall (fun l => is_dict l = true) locs ->
  exists outs, location_loop locs = yields outs TEnd /\ List.length outs = List.length locs.
Proof.
  intros locs Hf. induction Hf as [|l locs Hl _ IH].
  - exists []. split; reflexivity.
  - destruct IH as [outs [E L]]. destruct l; try discriminate Hl.
    eexists (_ :: outs). split.
    + simpl. rewrite E. reflexivity.
    + simpl. f_equal. exact L.
Qed.

End Loops.

End ExtraFacts.

(** ** The properties *)

Module Extras.
Import Binary64 Scalar Py Models Extract Binary64Facts NumFacts ParserFacts ExtraFacts.
Local Open Scope string_scope.

Section Generic.
Context `{TimeUtils} `{HttpAllowlist} `{FloatOfStr}.

(** On a top-level object, these extractors yield their shape error and
    then iterate over the object's keys: every key is a string record,
    which gives an [AttributeError] ([str.get]) for activities and a
    [TypeError] ([str["snippet"]], [str["install"]]) for likes and app
    installs; nothing is raised. *)
Theorem list_extractors_on_dict : forall kvs : list (string * json),
  parse_json_activity (JDict kvs)
    = TYield (Err (Exn RuntimeError "Activity: Top level item isn't a list"))
        (yields (List.repeat (Err (Exn AttributeError "")) (List.length kvs)) TEnd)
  /\ parse_likes (JDict kvs)
    = TYield (Err (Exn RuntimeError "Likes: Top level item isn't a list"))
        (yields (List.repeat (Err (Exn TypeError "")) (List.length kvs)) TEnd)
  /\ parse_app_installs (JDict kvs)
    = TYield (Err (Exn RuntimeError "App installs: Top level item isn't a list"))
        (yields (List.repeat (Err (Exn TypeError "")) (List.length kvs)) TEnd).
Proof.
  intros kvs. unfold parse_json_activity, parse_likes, parse_app_installs, list_extractor.
  cbn [is_list py_iter yields]. rewrite !map_map.
  repeat split; f_equal; f_equal; apply map_const_repeat; reflexivity.
Qed.

(** A top-level object without the expected key gives exactly one error
    and no record, for the location-history, browser-history and
    semantic-history extractors. *)
Theorem missing_top_level_key_single_error : forall kvs : list (string * json),
  (dict_lookup "locations" kvs = None ->
     parse_location_history (JDict kvs)
     = TYield (Err (Exn RuntimeError "Locations: no 'locations' key")) TEnd)
  /\ (dict_lookup "Browser History" kvs = None ->
     parse_chrome_history (JDict kvs)
     = TYield (Err (Exn RuntimeError "Chrome/BrowserHistory: no 'Browser History' key")) TEnd)
  /\ (dict_lookup "timelineObjects" kvs = None ->
     parse_semantic_location_history (JDict kvs)
     = TYield (Err (Exn RuntimeError "Locations: no 'timelineObjects' key")) TEnd).
Proof.
  intros kvs. repeat split; intros Hk.
  - unfold parse_location_history. cbn [py_in py_get]. rewrite Hk. reflexivity.
  - unfold parse_chrome_history. cbn [py_in py_get]. rewrite Hk. reflexivity.
  - unfold parse_semantic_location_history. cbn [py_in py_get is_dict]. rewrite Hk.
    reflexivity.
Qed.

(** When every location record is an object, the location-history
    extractor yields one outcome per record and ends normally. *)
Theorem location_history_dict_records : forall kvs locs,
  dict_lookup "locations" kvs = Some (JList locs) ->
  Forall (fun l => is_dict l = true) locs ->
  exists outs, parse_location_history (JDict kvs) = yields outs TEnd
               /\ List.length outs = List.length locs.
Proof.
  intros kvs locs Hk Hf. unfold parse_location_history. cbn [py_in py_get].
  rewrite Hk. cbn [py_iter yields]. apply location_loop_dicts, Hf.
Qed.



(** [_check_required_keys] on a dict returns [None] exactly when every
    key is present, and otherwise the first absent key in list order. *)
Theorem check_required_keys_first_missing : forall (kvs : list (string * json)) (ks : list string),
  (check_required_keys (JDict kvs) ks = Ok None
     <-> Forall (fun k => dict_lookup k kvs <> None) ks)
  /\ (forall k, check_required_keys (JDict kvs) ks = Ok (Some k) ->
        exists pre post, ks = (pre ++ k :: post)%list /\ dict_lookup k kvs = None
          /\ Forall (fun k' => dict_lookup k' kvs <> None) pre).
Proof.
  intros kvs ks. induction ks as [|k0 ks [IH1 IH2]].
  - split; [split; [constructor | reflexivity] | discriminate].
  - simpl. destruct (dict_lookup k0 kvs) eqn:E; cbn [bind].
    + split.
      * rewrite IH1. split; [intros F; constructor; [congruence | exact F] |
                              intros F; inversion F; assumption].
      * intros k Hk. destruct (IH2 k Hk) as (pre & post & -> & Hn & Hf).
        exists (k0 :: pre), post. repeat split; [exact Hn|]. constructor; [congruence | exact Hf].
    + split.
      * split; [discriminate | intros F; inversion F; contradiction].
      * intros k Hk. injection Hk as <-. exists [], ks. repeat split; [exact E | constructor].
Qed.

(** A location record built by the loop has the E7 decodes of its int
    [latitudeE7] and [longitudeE7] fields as coordinates, and no accuracy
    exactly when ["accuracy"] is absent or [null]. *)
Theorem location_record_fields : forall kvs (a b : Z) (l : Location),
  dict_lookup "latitudeE7" kvs = Some (JInt a) ->
  dict_lookup "longitudeE7" kvs = Some (JInt b) ->
  location_loop [JDict kvs] = TYield (Ok (EvLocation l)) TEnd ->
  loc_lat l = e7_decode a /\ loc_lng l = e7_decode b
  /\ (loc_accuracy l = None
      <-> dict_lookup "accuracy" kvs = None \/ dict_lookup "accuracy" kvs = Some JNull).
Proof.
  intros kvs a b l Ha Hb Hl. cbn [location_loop py_get] in Hl.
  set (acc := match dict_lookup "accuracy" kvs with Some x => x | None => JNull end) in Hl.
  injection Hl as Hl.
  destruct (parse_location (JDict kvs) acc) as [l'|] eqn:Hp; [|discriminate].
  injection Hl as <-.
  unfold parse_location in Hp. cbn [py_getitem] in Hp. rewrite Hb, Ha in Hp.
  cbn [bind py_float] in Hp.
  bind_inv Hp. bind_inv Hp. bind_inv Hp. bind_inv Hp.
  injection Hp as <-. cbn [loc_lat loc_lng loc_accuracy].
  unfold int_to_float in E, E0.
  apply check_finite_inv in E. apply check_finite_inv in E0. subst.
  split; [reflexivity|]. split; [reflexivity|].
  unfold acc in E2. destruct (dict_lookup "accuracy" kvs) as [x|] eqn:Ex.
  - destruct (is_none x) eqn:N.
    + injection E2 as <-. destruct x; try discriminate N.
      split; [intros _; right; reflexivity | reflexivity].
    + bind_inv E2. injection E2 as <-. split; [discriminate|].
      intros [D|D]; [discriminate D | injection D as ->; discriminate N].
  - cbn [is_none] in E2. injection E2 as <-. split; [intros _; left; reflexivity | reflexivity].
Qed.


(** A placeVisit object lacking ["location"] or ["duration"] is rejected
    with a [RuntimeError] before anything else is read; likewise an
    activity segment lacking ["duration"] or ["activities"]. *)
Theorem sub_builders_required_keys : forall kvs : list (string * json),
  (dict_lookup "location" kvs = None \/ dict_lookup "duration" kvs = None ->
     parse_place_visit (JDict kvs) = Err (Exn RuntimeError "PlaceVisit: no key"))
  /\ (dict_lookup "duration" kvs = None \/ dict_lookup "activities" kvs = None ->
     parse_activity_segment (JDict kvs) = Err (Exn RuntimeError "ActivitySegment: no key")).
Proof.
  intros kvs. split; intros Hm.
  - unfold parse_place_visit.
    assert (K : exists k, check_required_keys (JDict kvs) sem_required_keys = Ok (Some k)).
    { destruct Hm as [Hk|Hk]; (eapply check_required_keys_missing; [|exact Hk]); simpl; tauto. }
    destruct K as [k ->]. reflexivity.
  - unfold parse_activity_segment.
    assert (K : exists k,
      check_required_keys (JDict kvs) sem_activity_segment_required_keys = Ok (Some k)).
    { destruct Hm as [Hk|Hk]; (eapply check_required_keys_missing; [|exact Hk]); simpl; tauto. }
    destruct K as [k ->]. reflexivity.
Qed.


(** A place visit that is built takes its coordinates and placeId from
    [CandidateLocation.from_dict] of its ["location"], its start and end
    from ["duration"] by the timestamp-key rule, and has a center
    latitude (longitude) exactly when ["centerLatE7"] (["centerLngE7"])
    is present. *)
Theorem place_visit_fields : forall (kvs : list (string * json)) (p : PlaceVisit),
  parse_place_visit (JDict kvs) = Ok (Some p) ->
  (exists lj c, dict_lookup "location" kvs = Some lj /\ candidate_location_from_dict lj = Ok c
     /\ pv_lat p = cl_lat c /\ pv_lng p = cl_lng c /\ pv_placeId p = cl_placeId c)
  /\ (exists dur, dict_lookup "duration" kvs = Some dur
     /\ parse_timestamp_key dur "startTimestamp" = Ok (pv_startTime p)
     /\ parse_timestamp_key dur "endTimestamp" = Ok (pv_endTime p))
  /\ (pv_centerLat p = None <-> dict_lookup "centerLatE7" kvs = None)
  /\ (pv_centerLng p = None <-> dict_lookup "centerLngE7" kvs = None).
Proof.
  intros kvs p Hp. unfold parse_place_visit in Hp.
  bind_inv Hp. destruct a as [k|]; [discriminate Hp|].
  apply rewrap_key_error_ok in Hp.
  bind_inv Hp. bind_inv Hp. destruct a0 as [k|]; [discriminate Hp|].
  repeat bind_inv Hp.
  injection Hp as <-. cbn [pv_lat pv_lng pv_placeId pv_startTime pv_endTime pv_centerLat pv_centerLng].
  split; [|split; [|split]].
  - exists a, a0. repeat split; [apply py_getitem_dict, E0 | exact E2].
  - exists a1. repeat split; [apply py_getitem_dict, E3 | exact E14 | exact E15].
  - apply (center_e7_none _ _ _ E12).
  - apply (center_e7_none _ _ _ E13).
Qed.

(** [CandidateLocation.from_dict] on int E7 fields: without ["sourceInfo"]
    the device tag is [None] and the coordinates are the E7 decodes; a
    ["sourceInfo"] that is not an object (such as [null]) raises
    [AttributeError] at [.get("deviceTag")]. *)
Theorem candidate_location_source_info : forall (kvs : list (string * json)) (a b : Z),
  dict_lookup "latitudeE7" kvs = Some (JInt a) ->
  dict_lookup "longitudeE7" kvs = Some (JInt b) ->
  (Z.abs a < 2 ^ 53)%Z -> (Z.abs b < 2 ^ 53)%Z ->
  (dict_lookup "sourceInfo" kvs = None ->
     exists c, candidate_location_from_dict (JDict kvs) = Ok c
       /\ cl_lat c = e7_decode a /\ cl_lng c = e7_decode b /\ cl_sourceInfoDeviceTag c = JNull)
  /\ (forall v, dict_lookup "sourceInfo" kvs = Some v -> is_dict v = false ->
     candidate_location_from_dict (JDict kvs) = Err (Exn AttributeError "")).
Proof.
  intros kvs a b Ha Hb Ba Bb. unfold candidate_location_from_dict.
  cbn [py_get py_getitem bind]. rewrite Ha, Hb. cbn [bind].
  rewrite (py_div_float_e7 a Ba), (py_div_float_e7 b Bb). cbn [bind].
  split.
  - intros Hs. rewrite Hs. cbn [py_get bind]. eexists. repeat split.
  - intros v Hs Hv. rewrite Hs. destruct v; try discriminate Hv; reflexivity.
Qed.

(** When [startLocation] ([endLocation]) is truthy, the built segment's
    start (end) coordinates are those of [CandidateLocation.from_dict] of
    it. *)
Theorem activity_segment_endpoint_decoded : forall (seg v : json) (ev : ActivitySegment),
  parse_activity_segment seg = Ok (Some ev) ->
  (py_getitem seg "startLocation" = Ok v -> py_truthy v = true ->
     exists c, candidate_location_from_dict v = Ok c
       /\ as_startLat ev = Some (cl_lat c) /\ as_startLng ev = Some (cl_lng c))
  /\ (py_getitem seg "endLocation" = Ok v -> py_truthy v = true ->
     exists c, candidate_location_from_dict v = Ok c
       /\ as_endLat ev = Some (cl_lat c) /\ as_endLng ev = Some (cl_lng c)).
Proof.
  intros seg v ev Hp.
  destruct (parse_activity_segment_endpoints seg ev Hp)
    as (s & e & Es & Ee & L1 & L2 & L3 & L4).
  split; intros Hk Ht.
  - unfold endpoint_lat_lng in Es. rewrite Hk in Es. cbn [bind] in Es. rewrite Ht in Es.
    cbn [bind] in Es. bind_inv Es. injection Es as <-.
    exists a. split; [reflexivity|]. rewrite L1, L2. split; reflexivity.
  - unfold endpoint_lat_lng in Ee. rewrite Hk in Ee. cbn [bind] in Ee. rewrite Ht in Ee.
    cbn [bind] in Ee. bind_inv Ee. injection Ee as <-.
    exists a. split; [reflexivity|]. rewrite L3, L4. split; reflexivity.
Qed.

(** A built activity segment: its times are [parse_json_utc_date] of
    [duration.startTimestamp] and [duration.endTimestamp] (no millisecond
    variant is consulted), it has one activity per entry of
    ["activities"], a waypoint path exactly when ["waypointPath"] is
    present, and an empty raw path when ["simplifiedRawPath"] is
    absent. *)
Theorem activity_segment_fields : forall (kvs : list (string * json)) (ev : ActivitySegment),
  parse_activity_segment (JDict kvs) = Ok (Some ev) ->
  (exists d st et, dict_lookup "duration" kvs = Some d
     /\ py_getitem d "startTimestamp" = Ok st /\ parse_json_utc_date st = Ok (as_startTime ev)
     /\ py_getitem d "endTimestamp" = Ok et /\ parse_json_utc_date et = Ok (as_endTime ev))
  /\ (exists v items, dict_lookup "activities" kvs = Some v /\ py_iter v = Ok items
     /\ List.length (as_activities ev) = List.length items)
  /\ (as_waypointPath ev = None <-> dict_lookup "waypointPath" kvs = None)
  /\ (dict_lookup "simplifiedRawPath" kvs = None -> as_simplifiedRawPath ev = []).
Proof.
  intros kvs ev Hp. unfold parse_activity_segment in Hp.
  bind_inv Hp. destruct a as [k|]; [discriminate Hp|].
  apply rewrap_key_error_ok in Hp.
  repeat bind_inv Hp.
  injection Hp as <-. cbn [as_startTime as_endTime as_activities as_waypointPath
                           as_simplifiedRawPath].
  assert (Hact : dict_lookup "activities" kvs <> None).
  { apply check_required_keys_none in E. inversion E as [|? ? _ F].
    inversion F; assumption. }
  split; [|split; [|split]].
  - exists a1, a2, a4. repeat split; try assumption. apply py_getitem_dict, E2.
  - exists a9, a10. apply py_get_dict in E10.
    destruct (dict_lookup "activities" kvs) as [x|]; [|contradiction].
    repeat split; [rewrite E10; reflexivity | exact E11 | apply (mapM_length _ _ _ _ _ E12)].
  - cbn [py_in] in E13. injection E13 as <-.
    destruct (dict_lookup "waypointPath" kvs) eqn:W.
    + bind_inv E14. bind_inv E14. injection E14 as <-. split; discriminate.
    + injection E14 as <-. split; reflexivity.
  - intros Hs. apply py_get_dict in E15. rewrite Hs in E15. subst a14.
    apply py_get_dict in E16. cbn in E16. subst a15.
    unfold simplified_raw_path_from_list in E17. cbn in E17. injection E17 as <-. reflexivity.
Qed.

(** [WaypointPath.from_dict]: no road segments exactly when
    [data.get("roadSegment")] is falsy (absent, [null], empty), otherwise
    one per entry; one waypoint per entry of ["waypoints"]. *)
Theorem waypoint_path_fields : forall (kvs : list (string * json)) (w : WaypointPath),
  waypoint_path_from_dict (JDict kvs) = Ok w ->
  (wpp_roadSegment w = None
     <-> py_truthy (match dict_lookup "roadSegment" kvs with Some x => x | None => JNull end)
         = false)
  /\ (forall l, wpp_roadSegment w = Some l ->
     exists v items, dict_lookup "roadSegment" kvs = Some v /\ py_iter v = Ok items
       /\ List.length l = List.length items)
  /\ (exists v items, dict_lookup "waypoints" kvs = Some v /\ py_iter v = Ok items
       /\ List.length (wpp_waypoints w) = List.length items).
Proof.
  intros kvs w Hp. unfold waypoint_path_from_dict in Hp.
  repeat bind_inv Hp.
  injection Hp as <-. cbn [wpp_roadSegment wpp_waypoints].
  apply py_get_dict in E. subst a.
  split; [|split].
  - destruct (py_truthy _) eqn:T.
    + bind_inv E0. bind_inv E0. bind_inv E0. injection E0 as <-. split; discriminate.
    + injection E0 as <-. split; reflexivity.
  - intros l Hl. destruct (py_truthy _) eqn:T; [|injection E0 as <-; discriminate Hl].
    bind_inv E0. bind_inv E0. bind_inv E0. injection E0 as <-. injection Hl as <-.
    do 2 eexists. split; [apply py_getitem_dict; eassumption|].
    split; [eassumption | eapply mapM_length; eassumption].
  - do 2 eexists. split; [apply py_getitem_dict; eassumption|].
    split; [eassumption | eapply mapM_length; eassumption].
Qed.



(** A timeline object that is not a dict contributes exactly one error
    and leaves [result] as it was: [in] on a list or str may succeed, but
    the subscript or [.keys()] that follows raises. *)
Theorem timeline_non_dict_object : forall (st : result_var) (o : json),
  is_dict o = false -> exists e, timeline_step st o = ([Err e], st).
Proof.
  intros st o Ho.
  destruct o; try discriminate Ho; unfold timeline_step; cbn [py_in py_getitem py_keys bind];
    repeat match goal with
           | |- context [match ?b with true => _ | false => _ end] => destruct b
           | |- context [match ?b with Some _ => _ | None => _ end] => destruct b
           end; eexists; reflexivity.
Qed.

(** A timeline object with a ["placeVisit"] key is handled as if it had
    no other key: an ["activitySegment"] beside it is never looked at. *)
Theorem timeline_place_visit_first : forall (st : result_var) (kvs : list (string * json)) (pv : json),
  dict_lookup "placeVisit" kvs = Some pv ->
  timeline_step st (JDict kvs) = timeline_step st (JDict [("placeVisit", pv)]).
Proof.
  intros st kvs pv Hk. unfold timeline_step. cbn [py_in py_getitem bind]. rewrite Hk.
  reflexivity.
Qed.

(** When every timeline object is a dict with a branch key, the variable
    [result] carried between iterations never shows: each object
    contributes its own outcomes (at most one) whatever came before. *)
Theorem timeline_loop_branch_objects : forall (st : result_var) (objs : list json),
  Forall (fun o => exists kvs, o = JDict kvs
            /\ (dict_lookup "placeVisit" kvs <> None \/ dict_lookup "activitySegment" kvs <> None))
    objs ->
  timeline_loop st objs = flat_map (fun o => fst (timeline_step RUnbound o)) objs
  /\ (List.length (timeline_loop st objs) <= List.length objs)%nat.
Proof.
  intros st objs Hf. revert st. induction Hf as [|o objs Ho Hf IH]; intros st.
  - split; [reflexivity | cbn; lia].
  - destruct (timeline_step_branch st o Ho) as (st' & Es & Eu & Hl).
    cbn [timeline_loop flat_map]. rewrite Es. cbn [fst].
    destruct (IH st') as [IH1 IH2]. rewrite IH1. split; [reflexivity|].
    rewrite length_app, <- IH1. cbn [List.length]. lia.
Qed.


(** A ["Browser History"] list gives one outcome per entry, in order,
    and nothing else: no top-level error and no exception. *)
Theorem chrome_history_one_per_item : forall (kvs : list (string * json)) (items : list json),
  dict_lookup "Browser History" kvs = Some (JList items) ->
  parse_chrome_history (JDict kvs)
    = yields (map (fun i => outcome_of EvChromeHistory (parse_chrome_item i)) items) TEnd.
Proof.
  intros kvs items Hk. unfold parse_chrome_history. cbn [py_in py_get py_iter].
  rewrite Hk. reflexivity.
Qed.

(** A built activity: for a legacy record (with ["snippet"]) the header
    is ["YouTube"] and title and time come from the snippet's ["title"]
    and ["publishedAt"]; otherwise header, title and time come from the
    record, and [products] defaults to the empty list. *)
Theorem activity_blob_fields : forall (kvs : list (string * json)) (a : Activity),
  parse_activity_blob (JDict kvs) = Ok a ->
  (forall sn, dict_lookup "snippet" kvs = Some sn ->
     act_header a = JStr "YouTube" /\ py_getitem sn "title" = Ok (act_title a)
     /\ exists p, py_getitem sn "publishedAt" = Ok p /\ parse_json_utc_date p = Ok (act_time a))
  /\ (dict_lookup "snippet" kvs = None ->
     dict_lookup "header" kvs = Some (act_header a) /\ dict_lookup "title" kvs = Some (act_title a)
     /\ (exists t, dict_lookup "time" kvs = Some t /\ parse_json_utc_date t = Ok (act_time a))
     /\ act_products a = match dict_lookup "products" kvs with Some p => p | None => JList [] end).
Proof.
  intros kvs a Hp. unfold parse_activity_blob in Hp.
  bind_inv Hp. bind_inv Hp. cbn [py_in py_getitem bind] in Hp.
  destruct (dict_lookup "snippet" kvs) as [sn|] eqn:S; cbn [bind] in Hp.
  - repeat bind_inv Hp. injection Hp as <-. cbn [act_header act_title act_time].
    split.
    + intros sn' Hs. injection Hs as <-. split; [reflexivity|]. split; [assumption|].
      eexists. split; eassumption.
    + intros Hs. discriminate Hs.
  - cbn [py_getitem] in Hp. repeat bind_inv Hp. injection Hp as <-.
    cbn [act_header act_title act_time act_products].
    split; [intros sn' Hs; discriminate Hs|]. intros _.
    repeat split.
    + apply py_getitem_dict; assumption.
    + apply py_getitem_dict; assumption.
    + eexists. split; [apply py_getitem_dict; eassumption | eassumption].
    + apply py_get_dict in E13. exact E13.
Qed.


(** [Waypoint.from_dict] and [RawPathPoint.from_dict] on int E7 fields
    give the E7 decodes ([v / 1e7]) of [latE7] and [lngE7]; the raw path
    point keeps [accuracyMeters] as read and takes its time from
    [parse_json_utc_date]. *)
Theorem e7_points_decoded : forall (kvs : list (string * json)) (a b : Z),
  dict_lookup "latE7" kvs = Some (JInt a) -> dict_lookup "lngE7" kvs = Some (JInt b) ->
  (Z.abs a < 2 ^ 53)%Z -> (Z.abs b < 2 ^ 53)%Z ->
  waypoint_from_dict (JDict kvs) = Ok (MkWaypoint (e7_decode a) (e7_decode b))
  /\ (forall acc ts t, dict_lookup "accuracyMeters" kvs = Some acc ->
        dict_lookup "timestamp" kvs = Some ts -> parse_json_utc_date ts = Ok t ->
        raw_path_point_from_dict (JDict kvs)
          = Ok (MkRawPathPoint (e7_decode a) (e7_decode b) acc t)).
Proof.
  intros kvs a b Ha Hb Ba Bb.
  unfold waypoint_from_dict, raw_path_point_from_dict. cbn [py_getitem bind].
  rewrite Ha, Hb. cbn [bind]. rewrite (py_div_float_e7 a Ba), (py_div_float_e7 b Bb).
  cbn [bind]. split; [reflexivity|].
  intros acc ts t Hacc Hts Ht. rewrite Hacc, Hts. cbn [bind]. rewrite Ht. reflexivity.
Qed.

(** The model builders divide the raw E7 value directly, with no
    [float()] conversion: a string [latE7] / [latitudeE7] raises
    [TypeError] in [Waypoint.from_dict], [RawPathPoint.from_dict] and
    [CandidateLocation.from_dict]. *)
Theorem e7_string_type_error : forall (kvs : list (string * json)) (s : string),
  (dict_lookup "latE7" kvs = Some (JStr s) ->
     waypoint_from_dict (JDict kvs) = Err (Exn TypeError "")
     /\ raw_path_point_from_dict (JDict kvs) = Err (Exn TypeError ""))
  /\ (dict_lookup "latitudeE7" kvs = Some (JStr s) ->
     candidate_location_from_dict (JDict kvs) = Err (Exn TypeError "")).
Proof.
  intros kvs s. split.
  - intros Hs. unfold waypoint_from_dict, raw_path_point_from_dict. cbn [py_getitem bind].
    rewrite Hs. split; reflexivity.
  - intros Hs. unfold candidate_location_from_dict. cbn [py_get py_getitem bind].
    rewrite Hs. reflexivity.
Qed.

(** A built Play Store install: ["install"] and its ["deviceAttribute"]
    are objects (a non-object fails at the subscript or at [.get]), and
    the device name is ["deviceDisplayName"], [None] when absent. *)
Theorem app_install_device_name : forall (kvs : list (string * json)) (a : PlayStoreAppInstall),
  parse_app_install (JDict kvs) = Ok a ->
  exists ikvs dkvs, dict_lookup "install" kvs = Some (JDict ikvs)
    /\ dict_lookup "deviceAttribute" ikvs = Some (JDict dkvs)
    /\ ai_device_name a
         = match dict_lookup "deviceDisplayName" dkvs with Some x => x | None => JNull end.
Proof.
  intros kvs a Hp. unfold parse_app_install in Hp.
  repeat bind_inv Hp. injection Hp as <-. cbn [ai_device_name].
  apply py_getitem_dict in E.
  destruct a0 as [| | | | | |ikvs]; try discriminate E0.
  apply py_getitem_dict in E2.
  destruct a3 as [| | | | | |dkvs]; try discriminate E3.
  apply py_get_dict in E3.
  exists ikvs, dkvs. repeat split; assumption.
Qed.

End Generic.

End Extras.

(* ------------------------------------------------------------------------- *)
(** ** Instances of the further properties on sample records *)

Module ExtraWitnesses.
Import Binary64 Scalar Py Models Extract Impl Samples Extras.
Local Open Scope string_scope.

Ltac refute E := vm_compute in E; discriminate E.

Lemma missing_top_level_key_single_error_witness :
  parse_location_history (JDict [])
    = TYield (Err (Exn RuntimeError "Locations: no 'locations' key")) TEnd
  /\ parse_chrome_history (JDict [])
    = TYield (Err (Exn RuntimeError "Chrome/BrowserHistory: no 'Browser History' key")) TEnd
  /\ parse_semantic_location_history (JDict [])
    = TYield (Err (Exn RuntimeError "Locations: no 'timelineObjects' key")) TEnd.
Proof.
  destruct (missing_top_level_key_single_error []) as (A & B & C).
  exact (conj (A eq_refl) (conj (B eq_refl) (C eq_refl))).
Defined.

Lemma location_history_dict_records_witness :
  exists outs, parse_location_history (JDict [("locations", JList [JDict sample_location])])
                 = yields outs TEnd
               /\ List.length outs = 1%nat.
Proof.
  apply (location_history_dict_records _ [JDict sample_location]);
    [reflexivity | repeat constructor].
Defined.


Lemma check_required_keys_first_missing_witness :
  check_required_keys (JDict [("location", JNull)]) sem_required_keys = Ok (Some "duration")
  /\ exists pre post, sem_required_keys = (pre ++ "duration" :: post)%list
       /\ dict_lookup "duration" [("location", JNull)] = None
       /\ Forall (fun k' => dict_lookup k' [("location", JNull)] <> None) pre.
Proof.
  assert (E : check_required_keys (JDict [("location", JNull)]) sem_required_keys
              = Ok (Some "duration")) by reflexivity.
  exact (conj E (proj2 (check_required_keys_first_missing _ _) _ E)).
Defined.

Lemma location_record_fields_witness :
  match location_loop [JDict sample_location] with
  | TYield (Ok (EvLocation l)) TEnd =>
      loc_lat l = e7_decode 351324213 /\ loc_lng l = e7_decode (-1122434441)
      /\ (loc_accuracy l = None
          <-> dict_lookup "accuracy" sample_location = None
              \/ dict_lookup "accuracy" sample_location = Some JNull)
  | _ => False
  end.
Proof.
  destruct (location_loop [JDict sample_location]) as [|[[]|e] []|e] eqn:E;
    try (refute E).
  exact (location_record_fields sample_location 351324213 (-1122434441) _ eq_refl eq_refl E).
Defined.


Lemma sub_builders_required_keys_witness :
  parse_place_visit (JDict [("location", JDict candidate_location)])
    = Err (Exn RuntimeError "PlaceVisit: no key")
  /\ parse_activity_segment (JDict [("duration", segment_duration)])
    = Err (Exn RuntimeError "ActivitySegment: no key").
Proof.
  split.
  - apply (proj1 (sub_builders_required_keys _)). right. reflexivity.
  - apply (proj2 (sub_builders_required_keys _)). right. reflexivity.
Defined.

Lemma place_visit_fields_witness :
  match parse_place_visit (JDict sample_place_visit_dict) with
  | Ok (Some p) =>
      (exists lj c, dict_lookup "location" sample_place_visit_dict = Some lj
         /\ candidate_location_from_dict lj = Ok c
         /\ pv_lat p = cl_lat c /\ pv_lng p = cl_lng c /\ pv_placeId p = cl_placeId c)
      /\ (exists dur, dict_lookup "duration" sample_place_visit_dict = Some dur
         /\ parse_timestamp_key dur "startTimestamp" = Ok (pv_startTime p)
         /\ parse_timestamp_key dur "endTimestamp" = Ok (pv_endTime p))
      /\ (pv_centerLat p = None <-> dict_lookup "centerLatE7" sample_place_visit_dict = None)
      /\ (pv_centerLng p = None <-> dict_lookup "centerLngE7" sample_place_visit_dict = None)
  | _ => False
  end.
Proof.
  destruct (parse_place_visit (JDict sample_place_visit_dict)) as [[p|]|e] eqn:E;
    try (refute E).
  exact (place_visit_fields _ _ E).
Defined.

Lemma candidate_location_source_info_witness :
  (exists c, candidate_location_from_dict (JDict candidate_location) = Ok c
     /\ cl_lat c = e7_decode 351324213 /\ cl_lng c = e7_decode (-1122434441)
     /\ cl_sourceInfoDeviceTag c = JNull)
  /\ candidate_location_from_dict (JDict (candidate_location ++ [("sourceInfo", JNull)]))
     = Err (Exn AttributeError "").
Proof.
  split.
  - apply (proj1 (candidate_location_source_info candidate_location 351324213 (-1122434441)
                    eq_refl eq_refl ltac:(reflexivity) ltac:(reflexivity))).
    reflexivity.
  - apply (proj2 (candidate_location_source_info (candidate_location ++ [("sourceInfo", JNull)])
                    351324213 (-1122434441) eq_refl eq_refl ltac:(reflexivity) ltac:(reflexivity))
             JNull); reflexivity.
Defined.

Lemma activity_segment_endpoint_decoded_witness :
  match parse_activity_segment (JDict sample_segment_dict) with
  | Ok (Some ev) =>
      (exists c, candidate_location_from_dict (JDict candidate_location) = Ok c
         /\ as_startLat ev = Some (cl_lat c) /\ as_startLng ev = Some (cl_lng c))
      /\ (exists c, candidate_location_from_dict (JDict candidate_location) = Ok c
         /\ as_endLat ev = Some (cl_lat c) /\ as_endLng ev = Some (cl_lng c))
  | _ => False
  end.
Proof.
  destruct (parse_activity_segment (JDict sample_segment_dict)) as [[ev|]|e] eqn:E;
    try (refute E).
  destruct (activity_segment_endpoint_decoded _ (JDict candidate_location) _ E) as [S T].
  exact (conj (S eq_refl eq_refl) (T eq_refl eq_refl)).
Defined.

Lemma activity_segment_fields_witness :
  match parse_activity_segment (JDict sample_segment_dict) with
  | Ok (Some ev) =>
      (exists d st et, dict_lookup "duration" sample_segment_dict = Some d
         /\ py_getitem d "startTimestamp" = Ok st /\ parse_json_utc_date st = Ok (as_startTime ev)
         /\ py_getitem d "endTimestamp" = Ok et /\ parse_json_utc_date et = Ok (as_endTime ev))
      /\ (exists v items, dict_lookup "activities" sample_segment_dict = Some v
         /\ py_iter v = Ok items /\ List.length (as_activities ev) = List.length items)
      /\ (as_waypointPath ev = None <-> dict_lookup "waypointPath" sample_segment_dict = None)
      /\ (dict_lookup "simplifiedRawPath" sample_segment_dict = None
          -> as_simplifiedRawPath ev = [])
  | _ => False
  end.
Proof.
  destruct (parse_activity_segment (JDict sample_segment_dict)) as [[ev|]|e] eqn:E;
    try (refute E).
  exact (activity_segment_fields _ _ E).
Defined.

Lemma waypoint_path_fields_witness :
  match waypoint_path_from_dict (JDict sample_waypoint_path) with
  | Ok w =>
      (wpp_roadSegment w = None
         <-> py_truthy (match dict_lookup "roadSegment" sample_waypoint_path with
                        | Some x => x | None => JNull end) = false)
      /\ (forall l, wpp_roadSegment w = Some l ->
          exists v items, dict_lookup "roadSegment" sample_waypoint_path = Some v
            /\ py_iter v = Ok items /\ List.length l = List.length items)
      /\ (exists v items, dict_lookup "waypoints" sample_waypoint_path = Some v
            /\ py_iter v = Ok items /\ List.length (wpp_waypoints w) = List.length items)
  | Err _ => False
  end.
Proof.
  destruct (waypoint_path_from_dict (JDict sample_waypoint_path)) as [w|e] eqn:E;
    [|refute E].
  exact (waypoint_path_fields _ _ E).
Defined.


Lemma timeline_non_dict_object_witness :
  exists e, timeline_step RUnbound (JList [JStr "placeVisit"]) = ([Err e], RUnbound).
Proof. apply timeline_non_dict_object. reflexivity. Defined.

Lemma timeline_place_visit_first_witness :
  timeline_step RUnbound
    (JDict [("activitySegment", JDict sample_segment_dict);
            ("placeVisit", JDict place_visit_no_place_id)])
  = timeline_step RUnbound (JDict [("placeVisit", JDict place_visit_no_place_id)]).
Proof. apply timeline_place_visit_first. reflexivity. Defined.

Lemma timeline_loop_branch_objects_witness :
  timeline_loop (RSome (EvChromeHistory sample_chrome))
    [JDict [("placeVisit", JDict sample_place_visit_dict)];
     JDict [("placeVisit", JDict place_visit_no_place_id)];
     JDict [("activitySegment", JDict sample_segment_dict)]]
  = flat_map (fun o => fst (timeline_step RUnbound o))
      [JDict [("placeVisit", JDict sample_place_visit_dict)];
       JDict [("placeVisit", JDict place_visit_no_place_id)];
       JDict [("activitySegment", JDict sample_segment_dict)]]
  /\ (List.length (timeline_loop (RSome (EvChromeHistory sample_chrome))
       [JDict [("placeVisit", JDict sample_place_visit_dict)];
        JDict [("placeVisit", JDict place_visit_no_place_id)];
        JDict [("activitySegment", JDict sample_segment_dict)]]) <= 3)%nat.
Proof.
  apply timeline_loop_branch_objects.
  repeat constructor; eexists; (split; [reflexivity|]);
    first [left; discriminate | right; discriminate].
Defined.


Lemma chrome_history_one_per_item_witness :
  parse_chrome_history (JDict [("Browser History", JList [chrome_item 1617404690134513])])
  = yields (map (fun i => outcome_of EvChromeHistory (parse_chrome_item i))
              [chrome_item 1617404690134513]) TEnd.
Proof. apply chrome_history_one_per_item. reflexivity. Defined.

Lemma activity_blob_fields_witness :
  match parse_activity_blob (JDict legacy_activity), parse_activity_blob (JDict activity_record) with
  | Ok a1, Ok a2 =>
      (act_header a1 = JStr "YouTube"
       /\ py_getitem (JDict [("title", JStr "Video");
                             ("publishedAt", JStr "2019-03-01T12:00:00.000Z");
                             ("subtitles", JList [JDict [("name", JStr "Channel")]])]) "title"
          = Ok (act_title a1))
      /\ dict_lookup "header" activity_record = Some (act_header a2)
      /\ act_products a2 = JList [JStr "Discover"]
  | _, _ => False
  end.
Proof.
  destruct (parse_activity_blob (JDict legacy_activity)) as [a1|e] eqn:E1; [|refute E1].
  destruct (parse_activity_blob (JDict activity_record)) as [a2|e] eqn:E2; [|refute E2].
  destruct (proj1 (activity_blob_fields _ _ E1) _ eq_refl) as (L1 & L2 & _).
  destruct (proj2 (activity_blob_fields _ _ E2) eq_refl) as (R1 & _ & _ & R4).
  exact (conj (conj L1 L2) (conj R1 R4)).
Defined.

Lemma e7_points_decoded_witness :
  waypoint_from_dict (JDict sample_raw_point)
    = Ok (MkWaypoint (e7_decode 351324213) (e7_decode (-1122434441)))
  /\ raw_path_point_from_dict (JDict sample_raw_point)
    = Ok (MkRawPathPoint (e7_decode 351324213) (e7_decode (-1122434441)) (JInt 5)
            (DT 1354766971087000)).
Proof.
  destruct (e7_points_decoded sample_raw_point 351324213 (-1122434441)
              eq_refl eq_refl ltac:(reflexivity) ltac:(reflexivity)) as [W R].
  split; [exact W|]. apply (R (JInt 5) (JStr "2012-12-06T04:09:31.087Z")); reflexivity.
Defined.

Lemma e7_string_type_error_witness :
  (waypoint_from_dict (JDict [("latE7", JStr "351324213"); ("lngE7", JInt 0)])
     = Err (Exn TypeError "")
   /\ raw_path_point_from_dict (JDict [("latE7", JStr "351324213"); ("lngE7", JInt 0)])
     = Err (Exn TypeError ""))
  /\ candidate_location_from_dict (JDict [("latitudeE7", JStr "351324213")])
     = Err (Exn TypeError "").
Proof.
  split.
  - apply (proj1 (e7_string_type_error _ "351324213")). reflexivity.
  - apply (proj2 (e7_string_type_error _ "351324213")). reflexivity.
Defined.

Lemma app_install_device_name_witness :
  match parse_app_install (JDict app_install_record) with
  | Ok a => exists ikvs dkvs, dict_lookup "install" app_install_record = Some (JDict ikvs)
              /\ dict_lookup "deviceAttribute" ikvs = Some (JDict dkvs)
              /\ ai_device_name a
                 = match dict_lookup "deviceDisplayName" dkvs with Some x => x | None => JNull end
  | Err _ => False
  end.
Proof.
  destruct (parse_app_install (JDict app_install_record)) as [a|e] eqn:E; [|refute E].
  exact (app_install_device_name _ _ E).
Defined.

End ExtraWitnesses.
